(** * Crypto Prediction Tournaments API: handlers of [main.py]

    A shallow embedding of the HTTP handlers of [src/main.py] over a model
    of the document store, and the properties of the specification that
    concern them.

    Layout:
    - Python values, exceptions and the builtins the handlers call;
    - the document store ([database.py], which is not part of the sources:
      its two repository functions follow the specification);
    - the handlers, one definition per Python function, same names;
    - the properties. *)

From Stdlib Require Import ZArith Ascii Floats DecimalString.
From stdpp Require Import gmap strings list.

Open Scope string_scope.
Open Scope list_scope.

(** ** Python values *)

(** A [datetime.datetime] without time zone, as the store driver returns
    it. *)
Record datetime := mk_datetime {
  year : nat; month : nat; day : nat;
  hour : nat; minute : nat; second : nat; microsecond : nat
}.

(** A [bson.ObjectId], kept in its canonical text form: 24 lower-case
    hexadecimal digits. *)
Definition objectid := string.

(** The values a stored document or a response field can hold. *)
Inductive value :=
| VNone
| VBool (b : bool)
| VInt (z : Z)
| VFloat (f : float)
| VStr (s : string)
| VDatetime (t : datetime)
| VObjectId (o : objectid).

(** A document is a Python [dict] with text keys. *)
Abbreviation document := (gmap string value).

(** [d.get(k)] and [d.get(k, default)]. *)
Definition get (d : document) (k : string) : value := default VNone (d !! k).
Definition get_or (d : document) (k : string) (dflt : value) : value :=
  default dflt (d !! k).

(** ** Exceptions and results *)

Inductive exc_class :=
| TypeError | ValueError | AttributeError | OverflowError
| ValidationError | InvalidId | StoreError.

(** [HTTPException] is what the handlers raise on purpose; every other
    exception carries its class and the text [str(e)] gives. *)
Inductive exn :=
| HTTPException (status_code : nat) (detail : string)
| PyExc (cls : exc_class) (msg : string).

Inductive result (A : Type) :=
| Ok (a : A)
| Raise (e : exn).
Arguments Ok {A} a.
Arguments Raise {A} e.

Definition is_ok {A} (r : result A) : bool :=
  match r with Ok _ => true | Raise _ => false end.

(** Decimal text of a natural number, and the same padded with zeros on
    the left ([%02d], [%04d], [%06d]). *)
Definition dec (n : nat) : string := NilZero.string_of_uint (Nat.to_uint n).

Fixpoint zeros (n : nat) : string :=
  match n with
  | O => EmptyString
  | S n' => String "0"%char (zeros n')
  end.

Definition pad (width n : nat) : string :=
  let s := dec n in zeros (width - String.length s) +:+ s.

(** [str(e)]: starlette prints an [HTTPException] as [status: detail]. *)
Definition exn_str (e : exn) : string :=
  match e with
  | HTTPException c d => dec c +:+ ": " +:+ d
  | PyExc _ msg => msg
  end.

(** [s[:n]] on text. *)
Definition str_prefix (n : nat) (s : string) : string := String.substring 0 n s.

(** ** Builtins *)

(** [bool(v)]: Python truthiness. *)
Definition truthy (v : value) : bool :=
  match v with
  | VNone => false
  | VBool b => b
  | VInt z => negb (z =? 0)%Z
  | VFloat f => negb (f =? 0)%float
  | VStr s => negb (String.eqb s EmptyString)
  | VDatetime _ => true
  | VObjectId _ => true
  end.

(** [type(v).__name__], as error messages print it. *)
Definition type_name (v : value) : string :=
  match v with
  | VNone => "NoneType"
  | VBool _ => "bool"
  | VInt _ => "int"
  | VFloat _ => "float"
  | VStr _ => "str"
  | VDatetime _ => "datetime.datetime"
  | VObjectId _ => "ObjectId"
  end.

(** [datetime.isoformat()]: [YYYY-MM-DDTHH:MM:SS], followed by [.ffffff]
    when the microseconds are not zero. *)
Definition datetime_isoformat (t : datetime) : string :=
  pad 4 (year t) +:+ "-" +:+ pad 2 (month t) +:+ "-" +:+ pad 2 (day t)
  +:+ "T" +:+ pad 2 (hour t) +:+ ":" +:+ pad 2 (minute t) +:+ ":"
  +:+ pad 2 (second t)
  +:+ (if Nat.eqb (microsecond t) 0 then EmptyString else "." +:+ pad 6 (microsecond t)).

(** [v.isoformat()]: only a datetime has the method. *)
Definition isoformat (v : value) : result string :=
  match v with
  | VDatetime t => Ok (datetime_isoformat t)
  | _ => Raise (PyExc AttributeError
           ("'" +:+ type_name v +:+ "' object has no attribute 'isoformat'"))
  end.

(** [float(z)] on an integer: rounded to the nearest double, ties to even;
    an integer too large for a double raises [OverflowError]. *)
Definition float_of_Z (z : Z) : float :=
  SF2Prim (binary_normalize prec emax z 0 false).

Definition float_of_int (z : Z) : result float :=
  let f := float_of_Z z in
  if is_infinity f
  then Raise (PyExc OverflowError "int too large to convert to float")
  else Ok f.

(** What the source leaves to the Python runtime: reading a float from
    text ([None] when [float(s)] raises [ValueError]) and printing one. *)
Class PyRuntime := {
  float_of_str : string -> option float;
  float_repr : float -> string
}.

Section Builtins.
Context {rt : PyRuntime}.

(** [float(v)]. *)
Definition py_float (v : value) : result float :=
  match v with
  | VFloat f => Ok f
  | VInt z => float_of_int z
  | VBool b => Ok (if b then 1%float else 0%float)
  | VStr s =>
      match float_of_str s with
      | Some f => Ok f
      | None => Raise (PyExc ValueError
                  ("could not convert string to float: '" +:+ s +:+ "'"))
      end
  | _ => Raise (PyExc TypeError
           ("float() argument must be a string or a real number, not '"
            +:+ type_name v +:+ "'"))
  end.

(** [str(v)]. *)
Definition py_str (v : value) : string :=
  match v with
  | VNone => "None"
  | VBool b => if b then "True" else "False"
  | VInt z => NilZero.string_of_int (Z.to_int z)
  | VFloat f => float_repr f
  | VStr s => s
  | VDatetime t =>
      pad 4 (year t) +:+ "-" +:+ pad 2 (month t) +:+ "-" +:+ pad 2 (day t)
      +:+ " " +:+ pad 2 (hour t) +:+ ":" +:+ pad 2 (minute t) +:+ ":"
      +:+ pad 2 (second t)
      +:+ (if Nat.eqb (microsecond t) 0 then EmptyString
           else "." +:+ pad 6 (microsecond t))
  | VObjectId o => o
  end.
End Builtins.


(** ** Identifiers *)

Definition is_hex (c : ascii) : bool :=
  let n := nat_of_ascii c in
  (((48 <=? n) && (n <=? 57)) || ((65 <=? n) && (n <=? 70))
   || ((97 <=? n) && (n <=? 102)))%nat.

Definition lower (c : ascii) : ascii :=
  let n := nat_of_ascii c in
  if ((65 <=? n) && (n <=? 90))%nat then ascii_of_nat (n + 32) else c.

Fixpoint str_forallb (p : ascii -> bool) (s : string) : bool :=
  match s with
  | EmptyString => true
  | String c s' => p c && str_forallb p s'
  end.

Fixpoint str_map (f : ascii -> ascii) (s : string) : string :=
  match s with
  | EmptyString => EmptyString
  | String c s' => String (f c) (str_map f s')
  end.

(** [ObjectId(s)] on text, after the driver's contract: a text of 24
    hexadecimal digits is an identifier, anything else raises
    [InvalidId]. *)
Definition ObjectId (s : string) : result objectid :=
  if (String.length s =? 24)%nat && str_forallb is_hex s
  then Ok (str_map lower s)
  else Raise (PyExc InvalidId
         ("'" +:+ s +:+ "' is not a valid ObjectId, it must be a 12-byte "
          +:+ "input or a 24-character hex string")).

Definition hex_digit (n : N) : ascii :=
  match String.get (N.to_nat n) "0123456789abcdef" with
  | Some c => c
  | None => "0"%char
  end.

Fixpoint hex_fixed (width : nat) (n : N) (acc : string) : string :=
  match width with
  | O => acc
  | S w => hex_fixed w (n / 16)%N (String (hex_digit (n mod 16)%N) acc)
  end.

(** The identifier the store assigns to its [n]-th insertion. *)
Definition oid_of_N (n : N) : objectid := hex_fixed 24 n EmptyString.

(** ** The document store *)

(** The filters the handlers build bind a field to a text or to an
    identifier. *)
Inductive fvalue :=
| FStr (s : string)
| FOid (o : objectid).

Abbreviation filter := (gmap string fvalue).

Definition field_matches (stored : option value) (q : fvalue) : bool :=
  match stored, q with
  | Some (VStr s), FStr s' => String.eqb s s'
  | Some (VObjectId o), FOid o' => String.eqb o o'
  | _, _ => false
  end.

(** A document matches a filter when it matches every binding of it. *)
Definition matches (f : filter) (d : document) : bool :=
  forallb (fun kq => field_matches (d !! kq.1) kq.2) (map_to_list f).

(** A database handle: its [name] attribute when it has one, the
    exception every operation raises while the server cannot be reached,
    the collections in insertion order, and the number of identifiers
    assigned so far. *)
Record Database := mk_Database {
  db_name : option string;
  db_fault : option exn;
  db_colls : gmap string (list document);
  db_counter : N
}.

Definition collection (d : Database) (name : string) : list document :=
  default [] (db_colls d !! name).

(** [db[name].find(f)]. *)
Definition find (d : Database) (name : string) (f : filter)
  : result (list document) :=
  match db_fault d with
  | Some e => Raise e
  | None => Ok (List.filter (matches f) (collection d name))
  end.

(** [db[name].find_one(f)]: the first match, or [None]. *)
Definition find_one (d : Database) (name : string) (f : filter)
  : result (option document) :=
  match find d name f with
  | Ok docs => Ok (head docs)
  | Raise e => Raise e
  end.

(** [db[name].insert_one(doc)]: the store assigns the identifier. *)
Definition insert_one (d : Database) (name : string) (doc : document)
  : result (objectid * Database) :=
  match db_fault d with
  | Some e => Raise e
  | None =>
      let oid := oid_of_N (db_counter d) in
      let doc' := <["_id" := VObjectId oid]> doc in
      Ok (oid,
          {| db_name := db_name d;
             db_fault := None;
             db_colls := <[name := collection d name ++ [doc']]> (db_colls d);
             db_counter := N.succ (db_counter d) |})
  end.

(** [db.list_collection_names()]. *)
Definition list_collection_names (d : Database) : result (list string) :=
  match db_fault d with
  | Some e => Raise e
  | None => Ok (map_to_list (db_colls d)).*1
  end.

(** ** Handlers as state transformers

    The module-level [db] is either [None] or a database handle; a handler
    reads and updates it and either returns or raises. The same shape,
    over the [response] dictionary, serves the diagnostics handler. *)

Definition M (S A : Type) : Type := S -> result A * S.

Definition ret {S A} (a : A) : M S A := fun s => (Ok a, s).

Definition raise {S A} (e : exn) : M S A := fun s => (Raise e, s).

Definition bind {S A B} (m : M S A) (k : A -> M S B) : M S B :=
  fun s =>
    match m s with
    | (Ok a, s') => k a s'
    | (Raise e, s') => (Raise e, s')
    end.

(** [try: body except Exception as e: handler]. What the body did to the
    state before it raised stays done. *)
Definition try_except {S A} (body : M S A) (handler : exn -> M S A) : M S A :=
  fun s =>
    match body s with
    | (Ok a, s') => (Ok a, s')
    | (Raise e, s') => handler e s'
    end.

(** A computation that only returns or raises. *)
Definition lift {S A} (r : result A) : M S A := fun s => (r, s).

Declare Scope py_scope.
Delimit Scope py_scope with py.
Notation "'let*' x ':=' c1 'in' c2" := (bind c1 (fun x => c2))
  (at level 10, x name, c1 at level 100, c2 at level 200) : py_scope.
Open Scope py_scope.

(** [for x in xs: out.append(f(x))] where [f] may raise. *)
Fixpoint for_each {A B} (f : A -> result B) (xs : list A) : result (list B) :=
  match xs with
  | [] => Ok []
  | x :: xs' =>
      match f x with
      | Raise e => Raise e
      | Ok y =>
          match for_each f xs' with
          | Raise e => Raise e
          | Ok ys => Ok (y :: ys)
          end
      end
  end.

(** The same sequencing for code that touches no state. *)
Definition rbind {A B} (r : result A) (k : A -> result B) : result B :=
  match r with
  | Ok a => k a
  | Raise e => Raise e
  end.

Notation "'let?' x ':=' c1 'in' c2" := (rbind c1 (fun x => c2))
  (at level 10, x name, c1 at level 100, c2 at level 200) : py_scope.

(** ** Schemas *)

(** What the handlers need of a pydantic model: its dump as a document. *)
Class Model (A : Type) := { model_dump : A -> document }.

(** Modelled from the spec: the [Tournament] payload of [schemas.py], §3 of
    the specification: two texts, two timestamps, two real numbers and a
    status that the caller may leave out. *)
Record Tournament := mk_Tournament {
  t_title : string;
  t_asset : string;
  t_start_time : datetime;
  t_end_time : datetime;
  t_entry_fee : float;
  t_prize_pool : float;
  t_status : option string
}.

(** Modelled from the spec: the [Prediction] payload of [schemas.py], §3 of
    the specification; [created_at] is there when the caller supplies
    it. *)
Record Prediction := mk_Prediction {
  p_tournament_id : string;
  p_user : string;
  p_direction : string;
  p_amount : float;
  p_created_at : option datetime
}.

(** A field the payload leaves out is left out of the document. *)
Definition set_opt (k : string) (o : option value) (d : document) : document :=
  match o with
  | Some v => <[k := v]> d
  | None => d
  end.

(** Modelled from the spec: the dump of a payload is field-for-field, with
    no renaming (§4.2). *)
#[export] Instance Tournament_model : Model Tournament := {
  model_dump t :=
    set_opt "status" (VStr <$> t_status t)
      (<["title" := VStr (t_title t)]>
      (<["asset" := VStr (t_asset t)]>
      (<["start_time" := VDatetime (t_start_time t)]>
      (<["end_time" := VDatetime (t_end_time t)]>
      (<["entry_fee" := VFloat (t_entry_fee t)]>
      (<["prize_pool" := VFloat (t_prize_pool t)]> ∅))))))
}.

#[export] Instance Prediction_model : Model Prediction := {
  model_dump p :=
    set_opt "created_at" (VDatetime <$> p_created_at p)
      (<["tournament_id" := VStr (p_tournament_id p)]>
      (<["user" := VStr (p_user p)]>
      (<["direction" := VStr (p_direction p)]>
      (<["amount" := VFloat (p_amount p)]> ∅))))
}.

(** ** Repository functions *)

(** The state of a request handler: the module-level [db]. *)
Abbreviation handler := (M (option Database)).

Definition db_unavailable : exn := PyExc StoreError "Database not available".

(** Modelled from the spec: [create_document] of [database.py] (§4.2)
    dumps the validated model, inserts the document into the named
    collection and returns the assigned identifier as text; a store
    failure propagates, and nothing is written. *)
Definition create_document {A} `{Model A} (collection_name : string) (data : A)
  : handler string :=
  fun db =>
    match db with
    | None => (Raise db_unavailable, db)
    | Some d =>
        match insert_one d collection_name (model_dump data) with
        | Ok (oid, d') => (Ok oid, Some d')
        | Raise e => (Raise e, db)
        end
    end.

(** Modelled from the spec: [get_documents] of [database.py] (§4.2) passes
    the filter to the store's find unmodified and returns every match. *)
Definition get_documents (collection_name : string) (filter_dict : filter)
  : handler (list document) :=
  fun db =>
    match db with
    | None => (Raise db_unavailable, db)
    | Some d => (find d collection_name filter_dict, db)
    end.

(** [db[name].find_one(f)] on the module-level handle; subscripting
    [None] raises. *)
Definition db_find_one (name : string) (f : filter)
  : handler (option document) :=
  fun db =>
    match db with
    | None => (Raise (PyExc TypeError "'NoneType' object is not subscriptable"), db)
    | Some d => (find_one d name f, db)
    end.

(** ** Response models *)

Module TournamentOut.
(** [class TournamentOut(BaseModel)]. *)
Record t := mk {
  id : string;
  title : string;
  asset : string;
  start_time : string;
  end_time : string;
  entry_fee : float;
  prize_pool : float;
  status : string
}.
End TournamentOut.

Definition nl : string := String (ascii_of_nat 10) EmptyString.

(** The fields of a model that were given something else than text. *)
Definition not_text (fields : list (string * value)) : list string :=
  (List.filter (fun kv => match kv.2 with VStr _ => false | _ => true end)
     fields).*1.

(** The text of a pydantic [ValidationError], shortened to its heading and
    one line per rejected field. *)
Definition validation_error (model : string) (fields : list string) : exn :=
  PyExc ValidationError
    (dec (List.length fields) +:+ " validation error"
     +:+ (if Nat.eqb (List.length fields) 1 then EmptyString else "s")
     +:+ " for " +:+ model
     +:+ String.concat EmptyString
           (List.map (fun f => nl +:+ f +:+ nl
                               +:+ "  Input should be a valid string")
              fields)).

(** [TournamentOut(id=..., title=..., ...)]: pydantic checks the
    arguments against the declared types. The handler passes texts for
    [id], [start_time] and [end_time] and floats for the two amounts;
    [title], [asset] and [status] come straight from the document, and a
    [str] field accepts nothing but text. *)
Definition TournamentOut_init (id : string) (title asset : value)
    (start_time end_time : string) (entry_fee prize_pool : float)
    (status : value) : result TournamentOut.t :=
  match title, asset, status with
  | VStr ti, VStr a, VStr st =>
      Ok (TournamentOut.mk id ti a start_time end_time entry_fee prize_pool st)
  | _, _, _ =>
      Raise (validation_error "TournamentOut"
               (not_text [("title", title); ("asset", asset);
                          ("status", status)]))
  end.

(** The diagnostics dictionary of [test_database]. *)
Record diagnostics := mk_diagnostics {
  backend : string;
  database : string;
  database_url : option string;
  database_name : option string;
  connection_status : string;
  collections : list string
}.

(** ** The handlers of [main.py] *)

(** [read_root]. *)
Definition read_root : handler document :=
  ret {["message" := VStr "Crypto Prediction Backend Running"]}.

(** Assignments [response[key] = value] of [test_database]. *)
Definition set_database (v : string) : M diagnostics unit :=
  fun r => (Ok tt, mk_diagnostics (backend r) v (database_url r)
                     (database_name r) (connection_status r) (collections r)).
Definition set_database_url (v : string) : M diagnostics unit :=
  fun r => (Ok tt, mk_diagnostics (backend r) (database r) (Some v)
                     (database_name r) (connection_status r) (collections r)).
Definition set_database_name (v : string) : M diagnostics unit :=
  fun r => (Ok tt, mk_diagnostics (backend r) (database r) (database_url r)
                     (Some v) (connection_status r) (collections r)).
Definition set_connection_status (v : string) : M diagnostics unit :=
  fun r => (Ok tt, mk_diagnostics (backend r) (database r) (database_url r)
                     (database_name r) v (collections r)).
Definition set_collections (v : list string) : M diagnostics unit :=
  fun r => (Ok tt, mk_diagnostics (backend r) (database r) (database_url r)
                     (database_name r) (connection_status r) v).

(** [os.getenv(name)] is truthy when the variable is set and not empty. *)
Definition getenv_truthy (env : gmap string string) (name : string) : bool :=
  match env !! name with
  | Some v => negb (String.eqb v EmptyString)
  | None => false
  end.

(** [test_database], lines 27-55: the dictionary is built, updated inside
    two nested [try] blocks, and returned. *)
Definition test_database (env : gmap string string) (db : option Database)
  : result diagnostics :=
  let response :=
    {| backend := "✅ Running";
       database := "❌ Not Available";
       database_url := None;
       database_name := None;
       connection_status := "Not Connected";
       collections := [] |} in
  let body : M diagnostics unit :=
    try_except
      (match db with
       | Some d =>
           let* _ := set_database "✅ Available" in
           let* _ := set_database_url
                       (if getenv_truthy env "DATABASE_URL"
                        then "✅ Set" else "❌ Not Set") in
           let* _ := set_database_name
                       (match db_name d with
                        | Some n => n
                        | None => "✅ Connected"
                        end) in
           let* _ := set_connection_status "Connected" in
           try_except
             (let* collections := lift (list_collection_names d) in
              let* _ := set_collections (take 10 collections) in
              set_database "✅ Connected & Working")
             (fun e =>
                set_database ("⚠️  Connected but Error: "
                              +:+ str_prefix 80 (exn_str e)))
       | None => set_database "⚠️  Available but not initialized"
       end)
      (fun e => set_database ("❌ Error: " +:+ str_prefix 80 (exn_str e))) in
  match body response with
  | (Ok _, response') => Ok response'
  | (Raise e, _) => Raise e
  end.

Section Handlers.
Context {rt : PyRuntime}.

(** [create_tournament], lines 70-76. *)
Definition create_tournament (t : Tournament) : handler document :=
  try_except
    (let* inserted_id := create_document "tournament" t in
     ret {["id" := VStr inserted_id]})
    (fun e => raise (HTTPException 500 (exn_str e))).

(** The body of the loop of [list_tournaments], lines 86-95: the
    arguments are evaluated from left to right, then the model is
    built. *)
Definition tournament_out (d : document) : result TournamentOut.t :=
  let id := py_str (get d "_id") in
  let title := get d "title" in
  let asset := get d "asset" in
  let? start_time :=
    if truthy (get d "start_time") then isoformat (get d "start_time")
    else Ok EmptyString in
  let? end_time :=
    if truthy (get d "end_time") then isoformat (get d "end_time")
    else Ok EmptyString in
  let? entry_fee := py_float (get_or d "entry_fee" (VInt 0)) in
  let? prize_pool := py_float (get_or d "prize_pool" (VInt 0)) in
  let status := get_or d "status" (VStr "upcoming") in
  TournamentOut_init id title asset start_time end_time entry_fee
    prize_pool status.

(** [{key: value} if value else {}] for an optional query value. *)
Definition query_filter (key : string) (value : option string) : filter :=
  match value with
  | Some v => if String.eqb v EmptyString then ∅ else {[key := FStr v]}
  | None => ∅
  end.

(** [list_tournaments], lines 79-98. *)
Definition list_tournaments (status : option string)
  : handler (list TournamentOut.t) :=
  try_except
    (let filter_q := query_filter "status" status in
     let* docs := get_documents "tournament" filter_q in
     let* out := lift (for_each tournament_out docs) in
     ret out)
    (fun e => raise (HTTPException 500 (exn_str e))).

(** [if not t]: [None] and the empty dictionary are falsy. *)
Definition doc_falsy (t : option document) : bool :=
  match t with
  | None => true
  | Some d => bool_decide (d = ∅)
  end.

(** [create_prediction], lines 101-118. *)
Definition create_prediction (p : Prediction) : handler document :=
  try_except
    (let* oid :=
       try_except (lift (ObjectId (p_tournament_id p)))
         (fun _ => raise (HTTPException 400 "Invalid tournament id")) in
     let* t := db_find_one "tournament" {["_id" := FOid oid]} in
     if doc_falsy t
     then raise (HTTPException 404 "Tournament not found")
     else
       let* inserted_id := create_document "prediction" p in
       ret {["id" := VStr inserted_id]})
    (fun e =>
       match e with
       | HTTPException _ _ => raise e
       | _ => raise (HTTPException 500 (exn_str e))
       end).

(** The dictionary built for each document by [list_predictions], lines
    127-134. *)
Definition prediction_out (d : document) : result document :=
  let id := py_str (get d "_id") in
  let tournament_id := get d "tournament_id" in
  let user := get d "user" in
  let direction := get d "direction" in
  let? amount := py_float (get_or d "amount" (VInt 0)) in
  let? created_at :=
    if truthy (get d "created_at")
    then let? s := isoformat (get d "created_at") in Ok (VStr s)
    else Ok VNone in
  Ok (<["id" := VStr id]>
     (<["tournament_id" := tournament_id]>
     (<["user" := user]>
     (<["direction" := direction]>
     (<["amount" := VFloat amount]>
     (<["created_at" := created_at]> ∅)))))).

(** [list_predictions], lines 121-138. *)
Definition list_predictions (tournament_id : option string)
  : handler (list document) :=
  try_except
    (let q := query_filter "tournament_id" tournament_id in
     let* docs := get_documents "prediction" q in
     lift (for_each prediction_out docs))
    (fun e => raise (HTTPException 500 (exn_str e))).
End Handlers.

(** ** The application: routes and responses *)

Inductive request :=
| GET_root
| GET_test
| POST_api_tournaments (t : Tournament)
| GET_api_tournaments (status : option string)
| POST_api_predictions (p : Prediction)
| GET_api_predictions (tournament_id : option string).

Inductive response :=
| Dict (d : document)
| Diagnostics (r : diagnostics)
| Tournaments (l : list TournamentOut.t)
| Dicts (l : list document).

(** [h] with its return value wrapped as a response. *)
Definition respond {A} (wrap : A -> response) (h : handler A) : handler response :=
  let* a := h in ret (wrap a).

Section App.
Context {rt : PyRuntime}.

(** The route table of [app]: each request runs its handler. *)
Definition app (env : gmap string string) (req : request) : handler response :=
  match req with
  | GET_root => respond Dict read_root
  | GET_test => respond Diagnostics (fun db => (test_database env db, db))
  | POST_api_tournaments t => respond Dict (create_tournament t)
  | GET_api_tournaments status => respond Tournaments (list_tournaments status)
  | POST_api_predictions p => respond Dict (create_prediction p)
  | GET_api_predictions tournament_id =>
      respond Dicts (list_predictions tournament_id)
  end.
End App.

(** ** Predicates used by the statements *)

(** The text form of a store identifier: 24 hexadecimal digits. *)
Definition well_formed_id (s : string) : Prop :=
  String.length s = 24 /\ str_forallb is_hex s = true.


(** The stored identifier of a document is [oid]. *)
Definition has_id (oid : objectid) (d : document) : bool :=
  match d !! "_id" with
  | Some (VObjectId o) => String.eqb o oid
  | _ => false
  end.

(** A stored value is missing or null. *)
Definition absent (d : document) (k : string) : Prop :=
  d !! k = None \/ d !! k = Some VNone.

(** A handler's answer to a raised exception of the generic branch. *)
Definition server_error {A} (r : result A) : result A :=
  match r with
  | Ok a => Ok a
  | Raise e => Raise (HTTPException 500 (exn_str e))
  end.

(** What the Tournament projection [r] of a stored document [d] owes to
    [d]: the defaults of the numeric and of the timestamp fields. *)
Definition tournament_defaults (d : document) (r : TournamentOut.t) : Prop :=
  (d !! "entry_fee" = None -> TournamentOut.entry_fee r = 0%float)
  /\ (forall f, d !! "entry_fee" = Some (VFloat f) -> TournamentOut.entry_fee r = f)
  /\ d !! "entry_fee" <> Some VNone
  /\ (d !! "prize_pool" = None -> TournamentOut.prize_pool r = 0%float)
  /\ (forall f, d !! "prize_pool" = Some (VFloat f) -> TournamentOut.prize_pool r = f)
  /\ d !! "prize_pool" <> Some VNone
  /\ (absent d "start_time" -> TournamentOut.start_time r = EmptyString)
  /\ (forall t, d !! "start_time" = Some (VDatetime t) ->
        TournamentOut.start_time r = datetime_isoformat t)
  /\ (absent d "end_time" -> TournamentOut.end_time r = EmptyString)
  /\ (forall t, d !! "end_time" = Some (VDatetime t) ->
        TournamentOut.end_time r = datetime_isoformat t).

(** What the Prediction projection [r] of a stored document [d] owes to
    [d]. *)
Definition prediction_defaults (d : document) (r : document) : Prop :=
  (exists f, r !! "amount" = Some (VFloat f)
             /\ (d !! "amount" = None -> f = 0%float)
             /\ (forall g, d !! "amount" = Some (VFloat g) -> f = g))
  /\ (absent d "created_at" -> r !! "created_at" = Some VNone)
  /\ (forall t, d !! "created_at" = Some (VDatetime t) ->
        r !! "created_at" = Some (VStr (datetime_isoformat t))).

(** The projection that listing gives for a tournament created from the
    payload [t] under the identifier [oid]. *)
Definition projection_of (oid : objectid) (t : Tournament) : TournamentOut.t :=
  {| TournamentOut.id := oid;
     TournamentOut.title := t_title t;
     TournamentOut.asset := t_asset t;
     TournamentOut.start_time := datetime_isoformat (t_start_time t);
     TournamentOut.end_time := datetime_isoformat (t_end_time t);
     TournamentOut.entry_fee := t_entry_fee t;
     TournamentOut.prize_pool := t_prize_pool t;
     TournamentOut.status := default "upcoming" (t_status t) |}.

(** ** Sample data *)

Definition empty_db : Database :=
  {| db_name := Some "tournaments"; db_fault := None; db_colls := ∅;
     db_counter := 0 |}.

Definition btc_weekly : Tournament :=
  {| t_title := "BTC Weekly"; t_asset := "BTC";
     t_start_time := mk_datetime 2025 1 1 0 0 0 0;
     t_end_time := mk_datetime 2025 1 8 0 0 0 0;
     t_entry_fee := 10; t_prize_pool := 1000;
     t_status := Some "upcoming" |}.

Definition eth_daily : Tournament :=
  {| t_title := "ETH Daily"; t_asset := "ETH";
     t_start_time := mk_datetime 2025 2 1 0 0 0 0;
     t_end_time := mk_datetime 2025 2 2 0 0 0 0;
     t_entry_fee := 5; t_prize_pool := 250;
     t_status := None |}.

(** A store holding one tournament document. *)
Definition one_tournament_db (doc : document) : Database :=
  {| db_name := Some "tournaments"; db_fault := None;
     db_colls := {["tournament" := [doc]]}; db_counter := 1 |}.

(** The document of [btc_weekly] under the first identifier. *)
Definition btc_doc : document :=
  <["_id" := VObjectId (oid_of_N 0)]> (model_dump btc_weekly).

(** The same tournament with a null entry fee. *)
Definition null_fee_doc : document := <["entry_fee" := VNone]> btc_doc.

(** An active tournament without a title. *)
Definition untitled_doc : document :=
  <["status" := VStr "active"]> (delete "title" btc_doc).

Definition bet_on (tournament_id : string) : Prediction :=
  {| p_tournament_id := tournament_id; p_user := "alice";
     p_direction := "up"; p_amount := 5; p_created_at := None |}.

(** A store whose server cannot be reached. *)
Definition unreachable_db : Database :=
  {| db_name := Some "tournaments";
     db_fault := Some (PyExc StoreError "connection refused");
     db_colls := ∅; db_counter := 0 |}.

(** The store after alice bet on the tournament of [btc_doc]. *)
Definition first_bet_db : Database :=
  {| db_name := Some "tournaments"; db_fault := None;
     db_colls :=
       <["prediction" :=
           [<["_id" := VObjectId (oid_of_N 1)]>
              (model_dump (bet_on (oid_of_N 0)))]]>
         {["tournament" := [btc_doc]]};
     db_counter := 2 |}.

(** A prediction document with neither amount nor timestamp. *)
Definition bare_bet_doc : document :=
  <["_id" := VObjectId (oid_of_N 1)]>
    (<["tournament_id" := VStr (oid_of_N 0)]> ∅).

Definition bare_bet_db : Database :=
  {| db_name := Some "tournaments"; db_fault := None;
     db_colls := {["prediction" := [bare_bet_doc]]}; db_counter := 2 |}.

(** The document of [eth_daily] under the second identifier, set active. *)
Definition eth_active_doc : document :=
  <["status" := VStr "active"]>
    (<["_id" := VObjectId (oid_of_N 1)]> (model_dump eth_daily)).

(** A store with an upcoming and an active tournament. *)
Definition two_tournaments_db : Database :=
  {| db_name := Some "tournaments"; db_fault := None;
     db_colls := {["tournament" := [btc_doc; eth_active_doc]]};
     db_counter := 2 |}.

(** ** Stores built through the API

    The stores one reaches from an empty database by requests that
    succeeded: the two creation endpoints are the only writers. *)
Inductive api_built : Database -> Prop :=
| built_empty (name : option string) :
    api_built {| db_name := name; db_fault := None; db_colls := ∅;
                 db_counter := 0 |}
| built_tournament (d d' : Database) (t : Tournament) (r : document) :
    api_built d ->
    create_tournament t (Some d) = (Ok r, Some d') ->
    api_built d'
| built_prediction (d d' : Database) (p : Prediction) (r : document) :
    api_built d ->
    create_prediction p (Some d) = (Ok r, Some d') ->
    api_built d'.

(** Every stored prediction names a stored tournament. *)
Definition references_hold (d : Database) : Prop :=
  forall doc, In doc (collection d "prediction") ->
    exists s oid t,
      doc !! "tournament_id" = Some (VStr s)
      /\ ObjectId s = Ok oid
      /\ In t (collection d "tournament")
      /\ t !! "_id" = Some (VObjectId oid).

(** ** Shapes of stored values *)

Definition is_text (v : value) : bool :=
  match v with VStr _ => true | _ => false end.

Definition is_datetime (v : value) : bool :=
  match v with VDatetime _ => true | _ => false end.

(** A value the timestamp expression of the projections accepts: falsy
    (null, empty text, zero, [False]) or a datetime. *)
Definition timestamp_ok (v : value) : bool := negb (truthy v) || is_datetime v.

Section Shapes.
Context {rt : PyRuntime}.

(** A value [float()] converts: a float, a boolean, an integer that fits a
    double, or a text the runtime reads as a float. *)
Definition numeric_ok (v : value) : bool :=
  match v with
  | VFloat _ | VBool _ => true
  | VInt z => negb (is_infinity (float_of_Z z))
  | VStr s => match float_of_str s with Some _ => true | None => false end
  | _ => false
  end.

(** The stored tournaments the Tournament projection accepts. *)
Definition listable_tournament (d : document) : bool :=
  is_text (get d "title") && is_text (get d "asset")
  && is_text (get_or d "status" (VStr "upcoming"))
  && timestamp_ok (get d "start_time") && timestamp_ok (get d "end_time")
  && numeric_ok (get_or d "entry_fee" (VInt 0))
  && numeric_ok (get_or d "prize_pool" (VInt 0)).

(** The stored predictions the Prediction projection accepts. *)
Definition listable_prediction (d : document) : bool :=
  numeric_ok (get_or d "amount" (VInt 0))
  && timestamp_ok (get d "created_at").
End Shapes.

(** The stored field [k] of a document is the text [s]. *)
Definition has_text (k s : string) (d : document) : bool :=
  match d !! k with
  | Some (VStr s') => String.eqb s' s
  | _ => false
  end.

Definition is_GET (req : request) : bool :=
  match req with
  | GET_root | GET_test | GET_api_tournaments _ | GET_api_predictions _ => true
  | POST_api_tournaments _ | POST_api_predictions _ => false
  end.

(** The routes that go through the store with a catch-all handler. *)
Definition is_store_route (req : request) : bool :=
  match req with
  | POST_api_tournaments _ | GET_api_tournaments _ | GET_api_predictions _ =>
      true
  | _ => false
  end.

(** The dictionary that listing gives for a prediction created from the
    payload [p] under the identifier [oid]. *)
Definition prediction_projection_of (oid : objectid) (p : Prediction)
  : document :=
  <["id" := VStr oid]>
  (<["tournament_id" := VStr (p_tournament_id p)]>
  (<["user" := VStr (p_user p)]>
  (<["direction" := VStr (p_direction p)]>
  (<["amount" := VFloat (p_amount p)]>
  (<["created_at" :=
       match p_created_at p with
       | Some t => VStr (datetime_isoformat t)
       | None => VNone
       end]> ∅))))).

(** The six keys of a listed prediction. *)
Definition prediction_keys : gset string :=
  {["id"; "tournament_id"; "user"; "direction"; "amount"; "created_at"]}.


(** ** More sample data *)

(** The tournament of [btc_doc] with its start stored as text. *)
Definition text_start_doc : document :=
  <["start_time" := VStr "2025-01-01"]> btc_doc.

(** A store whose second and third tournaments cannot be projected. *)
Definition mixed_db : Database :=
  {| db_name := Some "tournaments"; db_fault := None;
     db_colls := {["tournament" := [btc_doc; null_fee_doc; untitled_doc]]};
     db_counter := 3 |}.

(** A store whose only tournament has an identifier with a letter. *)
Definition lettered_db : Database :=
  {| db_name := Some "tournaments"; db_fault := None;
     db_colls :=
       {["tournament" :=
           [<["_id" := VObjectId (oid_of_N 10)]> (model_dump eth_daily)]]};
     db_counter := 11 |}.

(** A prediction document with a null amount. *)
Definition null_amount_doc : document :=
  <["amount" := VNone]> bare_bet_doc.

(** The tournament of [btc_doc] with an empty text and a zero where its
    timestamps were. *)
Definition falsy_times_doc : document :=
  <["start_time" := VStr EmptyString]> (<["end_time" := VInt 0]> btc_doc).

(** A bet that spells the identifier of [lettered_db]'s tournament in
    upper case. *)
Definition upper_bet : Prediction := bet_on "00000000000000000000000A".

(** [lettered_db] after [upper_bet]. *)
Definition lettered_bet_db : Database :=
  {| db_name := Some "tournaments"; db_fault := None;
     db_colls :=
       <["prediction" :=
           [<["_id" := VObjectId (oid_of_N 11)]> (model_dump upper_bet)]]>
         (db_colls lettered_db);
     db_counter := 12 |}.

(** ** Properties *)

(** *** The store *)

Lemma find_available (d : Database) (name : string) (f : filter) :
  db_fault d = None ->
  find d name f = Ok (List.filter (matches f) (collection d name)).
Proof. intros Hf. unfold find. now rewrite Hf. Qed.

Lemma matches_empty (d : document) : matches ∅ d = true.
Proof. unfold matches. now rewrite map_to_list_empty. Qed.

Lemma matches_singleton (k : string) (q : fvalue) (d : document) :
  matches {[k := q]} d = field_matches (d !! k) q.
Proof.
  unfold matches. rewrite map_to_list_singleton. simpl.
  apply andb_true_r.
Qed.

Lemma filter_all {A} (l : list A) : List.filter (fun _ => true) l = l.
Proof. induction l as [|x l IH]; simpl; congruence. Qed.

Lemma find_all (d : Database) (name : string) :
  db_fault d = None -> find d name ∅ = Ok (collection d name).
Proof.
  intros Hf. rewrite find_available by exact Hf. f_equal.
  rewrite <- (filter_all (collection d name)) at 2.
  apply List.filter_ext. intros doc. apply matches_empty.
Qed.


Lemma has_id_spec (oid : objectid) (d : document) :
  has_id oid d = true <-> d !! "_id" = Some (VObjectId oid).
Proof.
  unfold has_id. destruct (d !! "_id") as [[]|]; split; try discriminate.
  - intros H. apply String.eqb_eq in H. now subst.
  - intros [= ->]. apply String.eqb_refl.
Qed.


Lemma matches_id (oid : objectid) (d : document) :
  matches {["_id" := FOid oid]} d = has_id oid d.
Proof. rewrite matches_singleton. reflexivity. Qed.

(** A document found by its identifier is not the empty dictionary. *)
Lemma found_by_id_truthy (oid : objectid) (d : document) :
  has_id oid d = true -> d <> ∅.
Proof.
  intros H ->. unfold has_id in H. now rewrite lookup_empty in H.
Qed.

Lemma filter_none {A} (p : A -> bool) (l : list A) :
  (forall x, In x l -> p x = false) -> List.filter p l = [].
Proof.
  induction l as [|x l IH]; simpl; intros H; [reflexivity|].
  rewrite (H x) by now left. apply IH. intros y Hy. apply H. now right.
Qed.

(** *** Identifiers *)

Lemma ObjectId_well_formed (s : string) :
  well_formed_id s <-> exists oid, ObjectId s = Ok oid.
Proof.
  unfold well_formed_id, ObjectId. split.
  - intros [Hl Hh]. rewrite Hl, Hh. simpl. eauto.
  - intros [oid H].
    destruct (Nat.eqb_spec (String.length s) 24) as [Hl|Hl]; simpl in H;
      [|discriminate].
    destruct (str_forallb is_hex s); [auto | discriminate].
Qed.


Lemma head_filter_Some {A} (p : A -> bool) (l : list A) (x : A) :
  head (List.filter p l) = Some x -> In x l /\ p x = true.
Proof.
  induction l as [|y l IH]; simpl; [discriminate|].
  destruct (p y) eqn:E; simpl.
  - intros [= ->]. auto.
  - intros H. destruct (IH H). auto.
Qed.


(** *** Creating a prediction *)

Ltac run_handler :=
  unfold try_except, bind, lift, raise, ret, respond, db_find_one,
    create_document, get_documents, find_one in *.

Lemma dump_prediction_tournament_id (p : Prediction) (oid : objectid) :
  (<["_id" := VObjectId oid]> (model_dump p) : document) !! "tournament_id"
  = Some (VStr (p_tournament_id p)).
Proof.
  unfold model_dump, Prediction_model, set_opt.
  destruct (p_created_at p); reflexivity.
Qed.

(** The store after [insert_one] put [doc] into the collection [name]. *)
Lemma insert_one_available (d : Database) (name : string) (doc : document) :
  db_fault d = None ->
  exists d',
    insert_one d name doc = Ok (oid_of_N (db_counter d), d')
    /\ db_fault d' = None
    /\ db_name d' = db_name d
    /\ collection d' name
       = (collection d name
          ++ [<["_id" := VObjectId (oid_of_N (db_counter d))]> doc])
    /\ (forall other, other <> name -> collection d' other = collection d other).
Proof.
  intros Hf. unfold insert_one. rewrite Hf. eexists. split; [reflexivity|].
  unfold collection at 1 3. simpl. rewrite lookup_insert_eq.
  repeat split. intros other Hne. unfold collection. simpl.
  now rewrite lookup_insert_ne by congruence.
Qed.

Lemma insert_one_unavailable (d : Database) (name : string) (doc : document) (e : exn) :
  db_fault d = Some e -> insert_one d name doc = Raise e.
Proof. intros Hf. unfold insert_one. now rewrite Hf. Qed.

(** The three ways [create_prediction] ends on a store that answers. *)
Lemma create_prediction_available (p : Prediction) (d : Database) (oid : objectid) :
  db_fault d = None ->
  ObjectId (p_tournament_id p) = Ok oid ->
  create_prediction p (Some d) =
    match head (List.filter (has_id oid) (collection d "tournament")) with
    | None => (Raise (HTTPException 404 "Tournament not found"), Some d)
    | Some _ =>
        match insert_one d "prediction" (model_dump p) with
        | Ok (new, d') => (Ok {["id" := VStr new]}, Some d')
        | Raise e => (Raise e, Some d)
        end
    end.
Proof.
  intros Hf Ho. unfold create_prediction. run_handler.
  rewrite Ho, find_available by exact Hf.
  rewrite (List.filter_ext _ _ (matches_id oid)).
  destruct (head _) as [t|] eqn:Ht; cbn [doc_falsy]; [|reflexivity].
  apply head_filter_Some in Ht as [_ Ht]. apply found_by_id_truthy in Ht.
  rewrite bool_decide_eq_false_2 by exact Ht.
  destruct (insert_one_available d "prediction" (model_dump p) Hf)
    as (d' & -> & _).
  reflexivity.
Qed.

(** [create_prediction] either raises and leaves the store as it was, or
    found the tournament and appended one document to the predictions. *)
Lemma create_prediction_outcome (p : Prediction) (db : option Database) :
  (exists e, create_prediction p db = (Raise e, db))
  \/ (exists oid d d' t doc,
        db = Some d
        /\ create_prediction p db
           = (Ok {["id" := VStr (oid_of_N (db_counter d))]}, Some d')
        /\ ObjectId (p_tournament_id p) = Ok oid
        /\ In t (collection d "tournament")
        /\ t !! "_id" = Some (VObjectId oid)
        /\ collection d' "prediction"
           = (collection d "prediction" ++ [doc])
        /\ doc !! "tournament_id" = Some (VStr (p_tournament_id p))
        /\ collection d' "tournament" = collection d "tournament"
        /\ db_fault d' = None).
Proof.
  destruct (ObjectId (p_tournament_id p)) as [oid|e] eqn:Ho.
  2:{ left. unfold create_prediction. run_handler. rewrite Ho. eauto. }
  destruct db as [d|].
  2:{ left. unfold create_prediction. run_handler. rewrite Ho. eauto. }
  destruct (db_fault d) as [e|] eqn:Hf.
  { left. unfold create_prediction. run_handler. rewrite Ho.
    unfold find. rewrite Hf. destruct e; eauto. }
  rewrite (create_prediction_available p d oid Hf Ho).
  destruct (head _) as [t|] eqn:Ht; [|left; eauto].
  apply head_filter_Some in Ht as [Hin Hid]. apply has_id_spec in Hid.
  destruct (insert_one_available d "prediction" (model_dump p) Hf)
    as (d' & Hins & Hf' & _ & Hcoll & Hother).
  rewrite Hins. right. exists oid, d, d', t. eexists.
  repeat split; try eassumption.
  - apply dump_prediction_tournament_id.
  - now apply Hother.
Qed.

Lemma create_prediction_failure (p : Prediction) (db db' : option Database) (e : exn) :
  create_prediction p db = (Raise e, db') -> db' = db.
Proof.
  intros Hrun.
  destruct (create_prediction_outcome p db)
    as [[e' H]|(? & ? & ? & ? & ? & _ & H & _)];
    rewrite H in Hrun; [congruence | discriminate].
Qed.


(** C4: a well-formed tournament id that no stored tournament carries is
    answered 404 with detail [Tournament not found]. *)
Theorem unknown_tournament_404 (p : Prediction) (d : Database) (oid : objectid) :
  db_fault d = None ->
  ObjectId (p_tournament_id p) = Ok oid ->
  (forall t, In t (collection d "tournament") ->
             t !! "_id" <> Some (VObjectId oid)) ->
  create_prediction p (Some d)
  = (Raise (HTTPException 404 "Tournament not found"), Some d).
Proof.
  intros Hf Ho Hnone.
  rewrite (create_prediction_available p d oid Hf Ho).
  rewrite filter_none; [reflexivity|].
  intros t Ht. destruct (has_id oid t) eqn:E; [|reflexivity].
  apply has_id_spec in E. now apply Hnone in Ht.
Qed.

(** C2: a prediction is persisted only after its tournament was found: when
    [create_prediction] succeeds, or changes the store at all, the
    payload's [tournament_id] is the identifier of a tournament document
    of the store the request started from, and the document appended to
    the predictions carries that [tournament_id]. *)
Theorem persisted_prediction_references_tournament
    (p : Prediction) (db db' : option Database) (r : result document) :
  create_prediction p db = (r, db') ->
  is_ok r = true \/ db' <> db ->
  exists oid d d' t doc,
    db = Some d /\ db' = Some d'
    /\ ObjectId (p_tournament_id p) = Ok oid
    /\ In t (collection d "tournament")
    /\ t !! "_id" = Some (VObjectId oid)
    /\ collection d' "prediction" = (collection d "prediction" ++ [doc])
    /\ doc !! "tournament_id" = Some (VStr (p_tournament_id p))
    /\ r = Ok {["id" := VStr (oid_of_N (db_counter d))]}.
Proof.
  intros Hrun Hdone.
  destruct (create_prediction_outcome p db)
    as [[e H]|(oid & d & d' & t & doc & -> & H & Ho & Hin & Hid & Hc & Hd & _)];
    rewrite H in Hrun; injection Hrun as <- <-.
  - exfalso. destruct Hdone; [discriminate | congruence].
  - exists oid, d, d', t, doc. repeat split; assumption.
Qed.

(** *** Failing requests leave the store as it was *)

Lemma create_tournament_failure (t : Tournament) (db db' : option Database) (e : exn) :
  create_tournament t db = (Raise e, db') -> db' = db.
Proof.
  unfold create_tournament. run_handler. destruct db as [d|].
  - destruct (insert_one d "tournament" (model_dump t)) as [[oid d']|e'];
      [discriminate | congruence].
  - congruence.
Qed.

Lemma get_documents_reads (name : string) (f : filter) (db : option Database) :
  (get_documents name f db).2 = db.
Proof. unfold get_documents. now destruct db. Qed.

Section ReadOnly.
Context {rt : PyRuntime}.

Lemma list_tournaments_reads (status : option string) (db : option Database) :
  (list_tournaments status db).2 = db.
Proof.
  unfold list_tournaments. run_handler. destruct db as [d|]; [|reflexivity].
  destruct (find d _ _) as [docs|e]; [|reflexivity].
  now destruct (for_each tournament_out docs).
Qed.

Lemma list_predictions_reads (tid : option string) (db : option Database) :
  (list_predictions tid db).2 = db.
Proof.
  unfold list_predictions. run_handler. destruct db as [d|]; [|reflexivity].
  destruct (find d _ _) as [docs|e]; [|reflexivity].
  now destruct (for_each prediction_out docs).
Qed.

(** C8: a request that fails leaves the store exactly as it found it; so
    does [create_prediction] when it answers 400 or 404: no document is
    inserted. *)
Theorem failing_request_leaves_store
    (env : gmap string string) (req : request) (db db' : option Database)
    (e : exn) :
  app env req db = (Raise e, db') -> db' = db.
Proof.
  destruct req as [| |t|status|p|tid]; unfold app, respond, bind, ret.
  - discriminate.
  - destruct (test_database env db); congruence.
  - destruct (create_tournament t db) as [[a|e'] s] eqn:E; [discriminate|].
    intros [= <- <-]. eapply create_tournament_failure, E.
  - pose proof (list_tournaments_reads status db) as H.
    destruct (list_tournaments status db) as [[a|e'] s]; simpl in H;
      congruence.
  - destruct (create_prediction p db) as [[a|e'] s] eqn:E; [discriminate|].
    intros [= <- <-]. eapply create_prediction_failure, E.
  - pose proof (list_predictions_reads tid db) as H.
    destruct (list_predictions tid db) as [[a|e'] s]; simpl in H;
      congruence.
Qed.
End ReadOnly.

(** *** Loops *)

Lemma for_each_app {A B} (f : A -> result B) (xs : list A) (x : A)
    (ys : list B) (y : B) :
  for_each f xs = Ok ys -> f x = Ok y ->
  for_each f (xs ++ [x]) = Ok (ys ++ [y]).
Proof.
  revert ys. induction xs as [|a xs IH]; simpl; intros ys Hxs Hx.
  - injection Hxs as <-. now rewrite Hx.
  - destruct (f a) as [b|e]; [|discriminate].
    destruct (for_each f xs) as [bs|e]; [|discriminate].
    injection Hxs as <-. now rewrite (IH bs eq_refl Hx).
Qed.

Lemma for_each_Forall2 {A B} (f : A -> result B) (xs : list A) (ys : list B) :
  for_each f xs = Ok ys -> Forall2 (fun x y => f x = Ok y) xs ys.
Proof.
  revert ys. induction xs as [|a xs IH]; simpl; intros ys H.
  - injection H as <-. constructor.
  - destruct (f a) as [b|e] eqn:Ha; [|discriminate].
    destruct (for_each f xs) as [bs|e]; [|discriminate].
    injection H as <-. constructor; auto.
Qed.

Lemma for_each_raises {A B} (f : A -> result B) (xs : list A) (x : A) (e : exn) :
  In x xs -> f x = Raise e -> exists e', for_each f xs = Raise e'.
Proof.
  induction xs as [|a xs IH]; simpl; [tauto|]. intros [->|Hin] Hx.
  - rewrite Hx. eauto.
  - destruct (f a) as [b|e0]; [|eauto].
    destruct (IH Hin Hx) as [e' ->]. eauto.
Qed.

Lemma for_each_total {A B} (f : A -> result B) (xs : list A) :
  (forall x, In x xs -> exists y, f x = Ok y) ->
  exists ys, for_each f xs = Ok ys.
Proof.
  induction xs as [|a xs IH]; simpl; intros H; [eauto|].
  destruct (H a (or_introl eq_refl)) as [b ->].
  destruct IH as [bs ->]; eauto.
Qed.

Section Listing.
Context {rt : PyRuntime}.

(** What [list_tournaments] answers on a store that can be reached: the
    projections of the selected documents, or 500 when one of them
    cannot be projected. *)
Lemma list_tournaments_available (status : option string) (d : Database) :
  db_fault d = None ->
  list_tournaments status (Some d)
  = (server_error
       (for_each tournament_out
          (List.filter (matches (query_filter "status" status))
             (collection d "tournament"))),
     Some d).
Proof.
  intros Hf. unfold list_tournaments. run_handler.
  rewrite find_available by exact Hf.
  now destruct (for_each tournament_out _).
Qed.

Lemma list_predictions_available (tid : option string) (d : Database) :
  db_fault d = None ->
  list_predictions tid (Some d)
  = (server_error
       (for_each prediction_out
          (List.filter (matches (query_filter "tournament_id" tid))
             (collection d "prediction"))),
     Some d).
Proof.
  intros Hf. unfold list_predictions. run_handler.
  rewrite find_available by exact Hf.
  now destruct (for_each prediction_out _).
Qed.

(** The projection of the document stored for a payload. *)
Lemma tournament_out_dump (oid : objectid) (t : Tournament) :
  tournament_out (<["_id" := VObjectId oid]> (model_dump t))
  = Ok (projection_of oid t).
Proof.
  destruct t as [ti a st et fee pool [s|]]; reflexivity.
Qed.
End Listing.

(** *** Projections *)

Lemma get_absent (d : document) (k : string) : absent d k -> get d k = VNone.
Proof. unfold get. now intros [->| ->]. Qed.

Lemma timestamp_default (v : value) (s : string) :
  (if truthy v then isoformat v else Ok EmptyString) = Ok s ->
  (v = VNone -> s = EmptyString)
  /\ (forall t, v = VDatetime t -> s = datetime_isoformat t).
Proof.
  intros H. split.
  - intros ->. simpl in H. congruence.
  - intros t ->. simpl in H. congruence.
Qed.

Section Projections.
Context {rt : PyRuntime}.

Lemma float_default (d : document) (k : string) (f : float) :
  py_float (get_or d k (VInt 0)) = Ok f ->
  (d !! k = None -> f = 0%float)
  /\ (forall g, d !! k = Some (VFloat g) -> f = g)
  /\ d !! k <> Some VNone.
Proof.
  unfold get_or. intros H. repeat split.
  - intros E. rewrite E in H. simpl in H. vm_compute in H. congruence.
  - intros g E. rewrite E in H. simpl in H. congruence.
  - intros E. rewrite E in H. discriminate H.
Qed.

(** A null where a number is expected makes the projection raise. *)
Lemma float_null (d : document) (k : string) :
  d !! k = Some VNone ->
  py_float (get_or d k (VInt 0))
  = Raise (PyExc TypeError
      "float() argument must be a string or a real number, not 'NoneType'").
Proof. unfold get_or. now intros ->. Qed.

Lemma TournamentOut_init_ok id title asset st et fee pool status r :
  TournamentOut_init id title asset st et fee pool status = Ok r ->
  title = VStr (TournamentOut.title r)
  /\ asset = VStr (TournamentOut.asset r)
  /\ status = VStr (TournamentOut.status r)
  /\ TournamentOut.id r = id
  /\ TournamentOut.start_time r = st /\ TournamentOut.end_time r = et
  /\ TournamentOut.entry_fee r = fee /\ TournamentOut.prize_pool r = pool.
Proof.
  unfold TournamentOut_init.
  destruct title; try discriminate; destruct asset; try discriminate;
    destruct status; try discriminate.
  intros [= <-]. simpl. repeat split.
Qed.

(** A title or an asset that is not text is rejected by the model. *)
Lemma TournamentOut_init_rejects id title asset st et fee pool status :
  (forall s, title <> VStr s) \/ (forall s, asset <> VStr s) ->
  exists e, TournamentOut_init id title asset st et fee pool status = Raise e.
Proof.
  unfold TournamentOut_init. intros [H|H].
  - destruct title; eauto. now destruct (H s).
  - destruct title; eauto. destruct asset; eauto. now destruct (H s0).
Qed.

Lemma tournament_out_defaults (d : document) (r : TournamentOut.t) :
  tournament_out d = Ok r -> tournament_defaults d r.
Proof.
  unfold tournament_out, rbind.
  destruct (if truthy (get d "start_time") then _ else _) as [st|] eqn:Hst;
    [|discriminate].
  destruct (if truthy (get d "end_time") then _ else _) as [et|] eqn:Het;
    [|discriminate].
  destruct (py_float (get_or d "entry_fee" _)) as [fee|] eqn:Hfee;
    [|discriminate].
  destruct (py_float (get_or d "prize_pool" _)) as [pool|] eqn:Hpool;
    [|discriminate].
  intros Hr. apply TournamentOut_init_ok in Hr
    as (_ & _ & _ & _ & <- & <- & <- & <-).
  apply timestamp_default in Hst as [Hst0 Hst1].
  apply timestamp_default in Het as [Het0 Het1].
  apply float_default in Hfee as (Hf0 & Hf1 & Hf2).
  apply float_default in Hpool as (Hp0 & Hp1 & Hp2).
  unfold tournament_defaults. repeat split; try assumption.
  - intros H. apply Hst0, get_absent, H.
  - intros t H. apply Hst1. unfold get. now rewrite H.
  - intros H. apply Het0, get_absent, H.
  - intros t H. apply Het1. unfold get. now rewrite H.
Qed.

(** A missing or null title or asset makes the projection raise. *)
Lemma tournament_out_rejects (d : document) :
  absent d "title" \/ absent d "asset" ->
  exists e, tournament_out d = Raise e.
Proof.
  intros H. unfold tournament_out, rbind.
  destruct (if truthy (get d "start_time") then _ else _); [|eauto].
  destruct (if truthy (get d "end_time") then _ else _); [|eauto].
  destruct (py_float (get_or d "entry_fee" _)); [|eauto].
  destruct (py_float (get_or d "prize_pool" _)); [|eauto].
  apply TournamentOut_init_rejects.
  destruct H as [H|H]; [left|right]; rewrite (get_absent _ _ H);
    discriminate.
Qed.

Lemma prediction_out_defaults (d r : document) :
  prediction_out d = Ok r -> prediction_defaults d r.
Proof.
  unfold prediction_out, rbind.
  destruct (py_float (get_or d "amount" _)) as [amount|] eqn:Ha;
    [|discriminate].
  apply float_default in Ha as (H0 & H1 & _).
  assert (Hamount : forall c : value,
             exists f, (<["id" := VStr (py_str (get d "_id"))]>
                       (<["tournament_id" := get d "tournament_id"]>
                       (<["user" := get d "user"]>
                       (<["direction" := get d "direction"]>
                       (<["amount" := VFloat amount]>
                       (<["created_at" := c]> ∅))))) : document) !! "amount"
                       = Some (VFloat f)
                       /\ (d !! "amount" = None -> f = 0%float)
                       /\ (forall g, d !! "amount" = Some (VFloat g) -> f = g)).
  { intros c. exists amount. split; [reflexivity | auto]. }
  destruct (truthy (get d "created_at")) eqn:Ht.
  - destruct (isoformat (get d "created_at")) as [s|] eqn:Hs;
      [|discriminate].
    intros [= Hr]; subst r. split; [apply Hamount | split].
    + intros H. rewrite (get_absent _ _ H) in Ht. discriminate Ht.
    + intros t H. unfold get in Hs. rewrite H in Hs. simpl in Hs.
      injection Hs as <-. reflexivity.
  - intros [= Hr]; subst r. split; [apply Hamount | split].
    + intros _. reflexivity.
    + intros t H. unfold get in Ht. rewrite H in Ht. discriminate Ht.
Qed.

(** A document without amount and without timestamp is projected, to the
    amount 0.0 and an explicit null. *)
Lemma prediction_out_missing (d : document) :
  d !! "amount" = None -> absent d "created_at" ->
  exists r, prediction_out d = Ok r
            /\ r !! "amount" = Some (VFloat 0)
            /\ r !! "created_at" = Some VNone.
Proof.
  intros Ha Hc. unfold prediction_out, rbind, get_or.
  rewrite Ha, (get_absent _ _ Hc). simpl. eexists. split; [reflexivity|].
  split; reflexivity.
Qed.
End Projections.

Lemma filter_matches_empty (l : list document) :
  List.filter (matches ∅) l = l.
Proof.
  rewrite <- (filter_all l) at 2. apply List.filter_ext.
  intros d. apply matches_empty.
Qed.

Lemma Forall2_impl_l {A B} (P Q : A -> B -> Prop) (xs : list A) (ys : list B) :
  (forall x y, P x y -> Q x y) -> Forall2 P xs ys -> Forall2 Q xs ys.
Proof. intros H F. induction F; constructor; auto. Qed.

Section Claims.
Context {rt : PyRuntime}.

(** C1: creating a tournament and then listing without a filter gives,
    after the projections of the tournaments already stored, the
    projection of the new one: its fields are those of the payload,
    [id] is the identifier the store assigned and the creation
    returned, and [status] is [upcoming] when the payload has none. *)
Theorem create_then_list_tournament
    (t : Tournament) (d : Database) (olds : list TournamentOut.t) :
  db_fault d = None ->
  for_each tournament_out (collection d "tournament") = Ok olds ->
  exists oid d',
    create_tournament t (Some d) = (Ok {["id" := VStr oid]}, Some d')
    /\ list_tournaments None (Some d')
       = (Ok (olds ++ [projection_of oid t]), Some d')
    /\ TournamentOut.status (projection_of oid t)
       = match t_status t with Some s => s | None => "upcoming" end.
Proof.
  intros Hf Holds.
  destruct (insert_one_available d "tournament" (model_dump t) Hf)
    as (d' & Hins & Hf' & _ & Hcoll & _).
  exists (oid_of_N (db_counter d)), d'. split; [|split].
  - unfold create_tournament. run_handler. now rewrite Hins.
  - rewrite list_tournaments_available by exact Hf'.
    cbn [query_filter]. rewrite filter_matches_empty, Hcoll.
    rewrite (for_each_app _ _ _ _ _ Holds (tournament_out_dump _ t)).
    reflexivity.
  - unfold projection_of. simpl. destruct (t_status t); reflexivity.
Qed.

(** C5, as amended: in every answer of [list_tournaments], [entry_fee]
    and [prize_pool] are floats, 0.0 when the stored value is missing
    and never obtained from a stored null, and [start_time] and
    [end_time] are the ISO-8601 text of the stored timestamp, or the
    empty text when it is missing or null. *)
Theorem tournament_projection_defaults
    (status : option string) (db db' : option Database)
    (out : list TournamentOut.t) :
  list_tournaments status db = (Ok out, db') ->
  exists docs,
    get_documents "tournament" (query_filter "status" status) db
    = (Ok docs, db)
    /\ Forall2 tournament_defaults docs out.
Proof.
  unfold list_tournaments. run_handler. destruct db as [d|]; [|discriminate].
  destruct (find d _ _) as [docs|e]; [|discriminate].
  destruct (for_each tournament_out docs) as [rs|e] eqn:E; [|discriminate].
  intros [= <- <-]. exists docs. split; [reflexivity|].
  eapply Forall2_impl_l; [|apply for_each_Forall2, E].
  apply tournament_out_defaults.
Qed.

(** C6: in every answer of [list_predictions], [amount] is a float, 0.0
    when the stored value is missing, and [created_at] is an explicit
    null when the stored value is missing or null and the ISO-8601 text
    of the stored timestamp otherwise; the Tournament projection gives
    the empty text where this one gives null. *)
Theorem prediction_projection_defaults
    (tournament_id : option string) (db db' : option Database)
    (out : list document) :
  list_predictions tournament_id db = (Ok out, db') ->
  exists docs,
    get_documents "prediction" (query_filter "tournament_id" tournament_id) db
    = (Ok docs, db)
    /\ Forall2 prediction_defaults docs out.
Proof.
  unfold list_predictions. run_handler. destruct db as [d|]; [|discriminate].
  destruct (find d _ _) as [docs|e]; [|discriminate].
  destruct (for_each prediction_out docs) as [rs|e] eqn:E; [|discriminate].
  intros [= <- <-]. exists docs. split; [reflexivity|].
  eapply Forall2_impl_l; [|apply for_each_Forall2, E].
  apply prediction_out_defaults.
Qed.


(** C10: when a tournament selected by the filter has a missing or null
    [title] or [asset], its projection raises and the whole listing is
    answered 500: no partial list, no coerced value. *)
Theorem untitled_tournament_fails_listing
    (status : option string) (d : Database) (doc : document) :
  db_fault d = None ->
  In doc (collection d "tournament") ->
  matches (query_filter "status" status) doc = true ->
  absent doc "title" \/ absent doc "asset" ->
  (exists e, tournament_out doc = Raise e)
  /\ exists detail,
       list_tournaments status (Some d)
       = (Raise (HTTPException 500 detail), Some d).
Proof.
  intros Hf Hin Hm Habs.
  destruct (tournament_out_rejects doc Habs) as [e He].
  split; [eauto|].
  rewrite list_tournaments_available by exact Hf.
  destruct (for_each_raises tournament_out
              (List.filter (matches (query_filter "status" status))
                 (collection d "tournament")) doc e) as [e' ->]; auto.
  - apply List.filter_In. auto.
  - simpl. eauto.
Qed.
End Claims.

(** *** Diagnostics *)

(** The dictionary [test_database] returns when the handle is set. *)
Lemma test_database_some (env : gmap string string) (d : Database) :
  test_database env (Some d)
  = Ok {| backend := "✅ Running";
          database :=
            match list_collection_names d with
            | Ok _ => "✅ Connected & Working"
            | Raise e =>
                "⚠️  Connected but Error: " +:+ str_prefix 80 (exn_str e)
            end;
          database_url :=
            Some (if getenv_truthy env "DATABASE_URL"
                  then "✅ Set" else "❌ Not Set");
          database_name :=
            Some (match db_name d with
                  | Some n => n
                  | None => "✅ Connected"
                  end);
          connection_status := "Connected";
          collections :=
            match list_collection_names d with
            | Ok names => take 10 names
            | Raise _ => []
            end |}.
Proof.
  unfold test_database.
  cbv [try_except bind lift set_database set_database_url
      set_database_name set_connection_status set_collections
      backend database database_url database_name connection_status collections].
  destruct (list_collection_names d) as [names|e].
  all: reflexivity.
Qed.

(** C9: [test_database] always returns its dictionary, whether the handle
    is unset, the listing of the collections raises, or all goes well; the
    [collections] it reports are the first 10 names the store lists, and
    none when it lists nothing. *)
Theorem test_database_never_raises
    (env : gmap string string) (db : option Database) :
  exists r,
    test_database env db = Ok r
    /\ List.length (collections r) <= 10
    /\ collections r
       = match db with
         | Some d =>
             match list_collection_names d with
             | Ok names => take 10 names
             | Raise _ => []
             end
         | None => []
         end.
Proof.
  destruct db as [d|].
  - rewrite test_database_some. eexists. split; [reflexivity|].
    cbn [collections]. split; [|reflexivity].
    destruct (list_collection_names d) as [names|e].
    + rewrite length_take. lia.
    + cbn [List.length]. lia.
  - eexists. split; [reflexivity|]. cbn [collections List.length].
    split; [lia | reflexivity].
Qed.

(** *** Stores built through the API *)

Lemma create_tournament_available (t : Tournament) (d : Database) :
  db_fault d = None ->
  exists d',
    create_tournament t (Some d)
    = (Ok {["id" := VStr (oid_of_N (db_counter d))]}, Some d')
    /\ db_fault d' = None
    /\ collection d' "tournament"
       = collection d "tournament"
         ++ [<["_id" := VObjectId (oid_of_N (db_counter d))]> (model_dump t)]
    /\ collection d' "prediction" = collection d "prediction".
Proof.
  intros Hf.
  destruct (insert_one_available d "tournament" (model_dump t) Hf)
    as (d' & Hins & Hf' & _ & Hcoll & Hother).
  exists d'. repeat split; try assumption.
  - unfold create_tournament. run_handler. now rewrite Hins.
  - now apply Hother.
Qed.

Section Invariants.
Context {rt : PyRuntime}.

(** A store built through the API answers, every tournament in it can be
    listed, and every prediction in it names a tournament in it. *)
Lemma api_built_invariant (d : Database) :
  api_built d ->
  db_fault d = None
  /\ (exists out, for_each tournament_out (collection d "tournament") = Ok out)
  /\ references_hold d.
Proof.
  induction 1 as [name | d d' t r _ (Hf & [out Hout] & Href) Hrun
                 | d d' p r _ (Hf & [out Hout] & Href) Hrun].
  - split; [reflexivity|]. split; [exists []; reflexivity|].
    intros doc [].
  - destruct (create_tournament_available t d Hf)
      as (d2 & Hrun2 & Hf2 & Ht & Hp).
    rewrite Hrun2 in Hrun. injection Hrun as _ <-.
    split; [exact Hf2|]. split.
    + rewrite Ht. eexists.
      apply (for_each_app _ _ _ _ _ Hout (tournament_out_dump _ t)).
    + intros doc Hdoc. rewrite Hp in Hdoc.
      destruct (Href doc Hdoc) as (s & oid & t0 & H1 & H2 & H3 & H4).
      exists s, oid, t0. rewrite Ht. repeat split; auto.
      apply in_or_app. now left.
  - destruct (create_prediction_outcome p (Some d))
      as [[e H]|(oid & d0 & d2 & t & doc & [= <-] & H & Ho & Hin & Hid
                 & Hc & Hd & Ht & Hf2)];
      rewrite H in Hrun; [discriminate|]. injection Hrun as _ <-.
    split; [exact Hf2|]. split; [rewrite Ht; eauto|].
    intros doc' Hdoc. rewrite Hc in Hdoc. rewrite Ht.
    apply in_app_or in Hdoc as [Hold|[<-|[]]].
    + exact (Href doc' Hold).
    + exists (p_tournament_id p), oid, t. auto.
Qed.
End Invariants.

(** *** The properties at sample inputs *)

Lemma create_then_list_eth_daily :
  db_fault (one_tournament_db btc_doc) = None
  /\ forall rt : PyRuntime,
       for_each tournament_out
         (collection (one_tournament_db btc_doc) "tournament")
       = Ok [projection_of (oid_of_N 0) btc_weekly]
       /\ exists oid d',
            create_tournament eth_daily (Some (one_tournament_db btc_doc))
            = (Ok {["id" := VStr oid]}, Some d')
            /\ list_tournaments None (Some d')
               = (Ok ([projection_of (oid_of_N 0) btc_weekly]
                      ++ [projection_of oid eth_daily]), Some d')
            /\ TournamentOut.status (projection_of oid eth_daily)
               = "upcoming".
Proof.
  split; [reflexivity|]. intros rt. split; [reflexivity|].
  apply (create_then_list_tournament eth_daily (one_tournament_db btc_doc)
           [projection_of (oid_of_N 0) btc_weekly]); reflexivity.
Defined.

Lemma first_bet_references_btc :
  create_prediction (bet_on (oid_of_N 0)) (Some (one_tournament_db btc_doc))
  = (Ok {["id" := VStr (oid_of_N 1)]}, Some first_bet_db)
  /\ exists oid d d' t doc,
       Some (one_tournament_db btc_doc) = Some d /\ Some first_bet_db = Some d'
       /\ ObjectId (p_tournament_id (bet_on (oid_of_N 0))) = Ok oid
       /\ In t (collection d "tournament")
       /\ t !! "_id" = Some (VObjectId oid)
       /\ collection d' "prediction" = collection d "prediction" ++ [doc]
       /\ doc !! "tournament_id"
          = Some (VStr (p_tournament_id (bet_on (oid_of_N 0))))
       /\ Ok ({["id" := VStr (oid_of_N 1)]} : document)
          = Ok {["id" := VStr (oid_of_N (db_counter d))]}.
Proof.
  assert (H : create_prediction (bet_on (oid_of_N 0))
                (Some (one_tournament_db btc_doc))
              = (Ok {["id" := VStr (oid_of_N 1)]}, Some first_bet_db))
    by (vm_compute; reflexivity).
  split; [exact H|].
  apply (persisted_prediction_references_tournament _ _ _ _ H).
  left. reflexivity.
Defined.


Lemma unknown_id_404 :
  db_fault (one_tournament_db btc_doc) = None
  /\ ObjectId (p_tournament_id (bet_on (oid_of_N 7))) = Ok (oid_of_N 7)
  /\ create_prediction (bet_on (oid_of_N 7)) (Some (one_tournament_db btc_doc))
     = (Raise (HTTPException 404 "Tournament not found"),
        Some (one_tournament_db btc_doc)).
Proof.
  split; [reflexivity|]. split; [reflexivity|].
  apply (unknown_tournament_404 (bet_on (oid_of_N 7))
           (one_tournament_db btc_doc) (oid_of_N 7)); [reflexivity..|].
  intros t [<-|[]]. vm_compute. discriminate.
Defined.

Lemma btc_weekly_listed :
  exists out,
    forall rt : PyRuntime,
      list_tournaments None (Some (one_tournament_db btc_doc))
      = (Ok out, Some (one_tournament_db btc_doc))
      /\ exists docs,
           get_documents "tournament" (query_filter "status" None)
             (Some (one_tournament_db btc_doc))
           = (Ok docs, Some (one_tournament_db btc_doc))
           /\ Forall2 tournament_defaults docs out.
Proof.
  exists [projection_of (oid_of_N 0) btc_weekly]. intros rt.
  assert (H : list_tournaments None (Some (one_tournament_db btc_doc))
              = (Ok [projection_of (oid_of_N 0) btc_weekly],
                 Some (one_tournament_db btc_doc))) by reflexivity.
  split; [exact H|].
  apply (tournament_projection_defaults None _ _ _ H).
Defined.

(** A stored null entry fee does not become 0.0: the projection raises and
    the listing is answered 500. *)
Lemma null_entry_fee_fails_listing :
  null_fee_doc !! "entry_fee" = Some VNone
  /\ forall rt : PyRuntime,
       list_tournaments None (Some (one_tournament_db null_fee_doc))
       = (Raise (HTTPException 500
            "float() argument must be a string or a real number, not 'NoneType'"),
          Some (one_tournament_db null_fee_doc)).
Proof. split; [reflexivity|]. intros rt. reflexivity. Qed.

Lemma bare_bet_listed :
  exists out,
    forall rt : PyRuntime,
      list_predictions None (Some bare_bet_db) = (Ok out, Some bare_bet_db)
      /\ exists docs,
           get_documents "prediction" (query_filter "tournament_id" None)
             (Some bare_bet_db)
           = (Ok docs, Some bare_bet_db)
           /\ Forall2 prediction_defaults docs out.
Proof.
  exists [<["id" := VStr (oid_of_N 1)]>
         (<["tournament_id" := VStr (oid_of_N 0)]>
         (<["user" := VNone]>
         (<["direction" := VNone]>
         (<["amount" := VFloat 0]>
         (<["created_at" := VNone]> ∅)))))].
  intros rt.
  assert (H : list_predictions None (Some bare_bet_db)
              = (Ok [<["id" := VStr (oid_of_N 1)]>
                    (<["tournament_id" := VStr (oid_of_N 0)]>
                    (<["user" := VNone]>
                    (<["direction" := VNone]>
                    (<["amount" := VFloat 0]>
                    (<["created_at" := VNone]> ∅)))))],
                 Some bare_bet_db)) by reflexivity.
  split; [exact H|].
  apply (prediction_projection_defaults None _ _ _ H).
Defined.


Lemma unknown_id_leaves_store :
  exists e,
    forall rt : PyRuntime,
      app ∅ (POST_api_predictions (bet_on (oid_of_N 7)))
        (Some (one_tournament_db btc_doc))
      = (Raise e, Some (one_tournament_db btc_doc))
      /\ Some (one_tournament_db btc_doc) = Some (one_tournament_db btc_doc).
Proof.
  exists (HTTPException 404 "Tournament not found"). intros rt.
  assert (H : app ∅ (POST_api_predictions (bet_on (oid_of_N 7)))
                (Some (one_tournament_db btc_doc))
              = (Raise (HTTPException 404 "Tournament not found"),
                 Some (one_tournament_db btc_doc))) by reflexivity.
  split; [exact H|].
  apply (failing_request_leaves_store _ _ _ _ _ H).
Defined.

Lemma untitled_active_fails_listing :
  absent untitled_doc "title"
  /\ forall rt : PyRuntime,
       (exists e, tournament_out untitled_doc = Raise e)
       /\ exists detail,
            list_tournaments (Some "active")
              (Some (one_tournament_db untitled_doc))
            = (Raise (HTTPException 500 detail),
               Some (one_tournament_db untitled_doc)).
Proof.
  assert (H : absent untitled_doc "title") by (left; reflexivity).
  split; [exact H|]. intros rt.
  apply (untitled_tournament_fails_listing (Some "active")
           (one_tournament_db untitled_doc) untitled_doc);
    [reflexivity | left; reflexivity | reflexivity | left; exact H].
Defined.

(** *** Worked examples *)

Example isoformat_new_year :
  datetime_isoformat (mk_datetime 2025 1 1 0 0 0 0) = "2025-01-01T00:00:00".
Proof. reflexivity. Qed.

Example isoformat_microseconds :
  datetime_isoformat (mk_datetime 2025 1 8 13 5 9 1500)
  = "2025-01-08T13:05:09.001500".
Proof. reflexivity. Qed.

Example float_of_int_ten : float_of_int 10 = Ok 10%float.
Proof. reflexivity. Qed.

Example float_of_int_overflow : is_ok (float_of_int (10 ^ 400)) = false.
Proof. vm_compute. reflexivity. Qed.

Example ObjectId_upper_case :
  ObjectId "65F0C0FFEE0123456789ABCD" = Ok "65f0c0ffee0123456789abcd".
Proof. reflexivity. Qed.

Example ObjectId_too_short : is_ok (ObjectId "65f0c0ffee") = false.
Proof. reflexivity. Qed.

Example first_identifier : oid_of_N 0 = "000000000000000000000000".
Proof. reflexivity. Qed.

Example active_filter_selects_eth (rt : PyRuntime) :
  (list_tournaments (Some "active") (Some two_tournaments_db)).1
  = Ok [ {| TournamentOut.id := "000000000000000000000001";
            TournamentOut.title := "ETH Daily";
            TournamentOut.asset := "ETH";
            TournamentOut.start_time := "2025-02-01T00:00:00";
            TournamentOut.end_time := "2025-02-02T00:00:00";
            TournamentOut.entry_fee := 5;
            TournamentOut.prize_pool := 250;
            TournamentOut.status := "active" |} ].
Proof. reflexivity. Qed.

Example no_filter_lists_both (rt : PyRuntime) :
  (list_tournaments None (Some two_tournaments_db)).1
  = Ok [ projection_of (oid_of_N 0) btc_weekly;
         {| TournamentOut.id := "000000000000000000000001";
            TournamentOut.title := "ETH Daily";
            TournamentOut.asset := "ETH";
            TournamentOut.start_time := "2025-02-01T00:00:00";
            TournamentOut.end_time := "2025-02-02T00:00:00";
            TournamentOut.entry_fee := 5;
            TournamentOut.prize_pool := 250;
            TournamentOut.status := "active" |} ].
Proof. reflexivity. Qed.

(** The scenario of the specification: the payload of BTC Weekly, created
    in an empty store and listed. *)
Example btc_weekly_scenario (rt : PyRuntime) :
  let '(created, db) := create_tournament btc_weekly (Some empty_db) in
  created = Ok {["id" := VStr "000000000000000000000000"]}
  /\ (list_tournaments None db).1
     = Ok [ {| TournamentOut.id := "000000000000000000000000";
               TournamentOut.title := "BTC Weekly";
               TournamentOut.asset := "BTC";
               TournamentOut.start_time := "2025-01-01T00:00:00";
               TournamentOut.end_time := "2025-01-08T00:00:00";
               TournamentOut.entry_fee := 10;
               TournamentOut.prize_pool := 1000;
               TournamentOut.status := "upcoming" |} ].
Proof. split; reflexivity. Qed.

Example diagnostics_unset_handle :
  test_database ∅ None
  = Ok {| backend := "✅ Running";
          database := "⚠️  Available but not initialized";
          database_url := None; database_name := None;
          connection_status := "Not Connected"; collections := [] |}.
Proof. reflexivity. Qed.

Example diagnostics_unreachable :
  test_database ∅ (Some unreachable_db)
  = Ok {| backend := "✅ Running";
          database := "⚠️  Connected but Error: connection refused";
          database_url := Some "❌ Not Set";
          database_name := Some "tournaments";
          connection_status := "Connected"; collections := [] |}.
Proof. reflexivity. Qed.

Example diagnostics_working :
  test_database {["DATABASE_URL" := "mongodb://localhost"]} (Some first_bet_db)
  = Ok {| backend := "✅ Running";
          database := "✅ Connected & Working";
          database_url := Some "✅ Set";
          database_name := Some "tournaments";
          connection_status := "Connected";
          collections := (map_to_list (db_colls first_bet_db)).*1 |}.
Proof. reflexivity. Qed.

Example api_built_first_bet : api_built first_bet_db.
Proof.
  eapply built_prediction with (p := bet_on (oid_of_N 0));
    [eapply built_tournament with (t := btc_weekly);
       [apply (built_empty (Some "tournaments")) | reflexivity]
    | reflexivity].
Qed.

(** *** Which documents can be listed *)

Lemma is_ok_server_error {A} (r : result A) : is_ok (server_error r) = is_ok r.
Proof. now destruct r. Qed.

Lemma is_ok_for_each {A B} (f : A -> result B) (xs : list A) :
  is_ok (for_each f xs) = forallb (fun x => is_ok (f x)) xs.
Proof.
  induction xs as [|x xs IH]; simpl; [reflexivity|].
  destruct (f x); simpl; [|reflexivity].
  rewrite <- IH. now destruct (for_each f xs).
Qed.

Lemma forallb_pointwise {A} (p q : A -> bool) (xs : list A) :
  (forall x, p x = q x) -> forallb p xs = forallb q xs.
Proof. intros H. induction xs as [|x xs IH]; simpl; congruence. Qed.

Lemma timestamp_expr_ok (v : value) :
  is_ok (if truthy v then isoformat v else Ok EmptyString) = timestamp_ok v.
Proof.
  unfold timestamp_ok. destruct (truthy v) eqn:E; destruct v; reflexivity.
Qed.

Section Listable.
Context {rt : PyRuntime}.

Lemma py_float_ok (v : value) : is_ok (py_float v) = numeric_ok v.
Proof.
  destruct v; simpl; try reflexivity.
  - unfold float_of_int. now destruct (is_infinity (float_of_Z z)).
  - now destruct (float_of_str s).
Qed.

Lemma TournamentOut_init_is_ok id title asset st et fee pool status :
  is_ok (TournamentOut_init id title asset st et fee pool status)
  = is_text title && is_text asset && is_text status.
Proof.
  unfold TournamentOut_init.
  destruct title; try reflexivity; destruct asset; try reflexivity;
    destruct status; reflexivity.
Qed.

Lemma tournament_out_listable (d : document) :
  is_ok (tournament_out d) = listable_tournament d.
Proof.
  unfold tournament_out, rbind, listable_tournament.
  rewrite <- !timestamp_expr_ok, <- !py_float_ok.
  destruct (if truthy (get d "start_time") then _ else _);
    cbn [is_ok]; [|now rewrite !andb_false_r].
  destruct (if truthy (get d "end_time") then _ else _);
    cbn [is_ok]; [|now rewrite !andb_false_r].
  destruct (py_float (get_or d "entry_fee" _));
    cbn [is_ok]; [|now rewrite !andb_false_r].
  destruct (py_float (get_or d "prize_pool" _));
    cbn [is_ok]; [|now rewrite !andb_false_r].
  rewrite TournamentOut_init_is_ok. now rewrite !andb_true_r.
Qed.

Lemma prediction_out_listable (d : document) :
  is_ok (prediction_out d) = listable_prediction d.
Proof.
  unfold prediction_out, rbind, listable_prediction.
  rewrite <- timestamp_expr_ok, <- py_float_ok.
  destruct (py_float (get_or d "amount" _)); cbn [is_ok]; [|reflexivity].
  destruct (truthy (get d "created_at")); [|reflexivity].
  now destruct (isoformat (get d "created_at")).
Qed.

(** X1: on a store that answers, [list_tournaments] succeeds exactly when
    every tournament the filter selects has a text [title] and [asset], a
    [status] that is missing or text, a [start_time] and an [end_time]
    that are falsy or datetimes, and an [entry_fee] and a [prize_pool]
    that are missing or convertible by [float()]. *)
Theorem list_tournaments_succeeds_iff_listable
    (status : option string) (d : Database) :
  db_fault d = None ->
  is_ok (list_tournaments status (Some d)).1
  = forallb listable_tournament
      (List.filter (matches (query_filter "status" status))
         (collection d "tournament")).
Proof.
  intros Hf. rewrite list_tournaments_available by exact Hf.
  cbn [fst]. rewrite is_ok_server_error, is_ok_for_each.
  apply forallb_pointwise. intros doc. apply tournament_out_listable.
Qed.

(** X2: on a store that answers, [list_predictions] succeeds exactly when
    every prediction the filter selects has an [amount] that is missing or
    convertible by [float()] and a [created_at] that is falsy or a
    datetime; [user], [direction] and [tournament_id] are not checked. *)
Theorem list_predictions_succeeds_iff_listable
    (tournament_id : option string) (d : Database) :
  db_fault d = None ->
  is_ok (list_predictions tournament_id (Some d)).1
  = forallb listable_prediction
      (List.filter (matches (query_filter "tournament_id" tournament_id))
         (collection d "prediction")).
Proof.
  intros Hf. rewrite list_predictions_available by exact Hf.
  cbn [fst]. rewrite is_ok_server_error, is_ok_for_each.
  apply forallb_pointwise. intros doc. apply prediction_out_listable.
Qed.

(** X3: a falsy stored timestamp of any type (null, empty text, zero,
    [False]) is listed as the empty text. *)
Theorem falsy_timestamp_listed_empty (d : document) (r : TournamentOut.t) :
  tournament_out d = Ok r ->
  (truthy (get d "start_time") = false ->
   TournamentOut.start_time r = EmptyString)
  /\ (truthy (get d "end_time") = false ->
      TournamentOut.end_time r = EmptyString).
Proof.
  unfold tournament_out, rbind.
  destruct (truthy (get d "start_time")) eqn:Hs;
    destruct (truthy (get d "end_time")) eqn:He;
    repeat match goal with
           | |- context [match ?x with Ok _ => _ | Raise _ => _ end] =>
               destruct x; [|discriminate]
           end;
    intros Hr; apply TournamentOut_init_ok in Hr
      as (_ & _ & _ & _ & <- & <- & _ & _);
    split; intros; congruence.
Qed.
End Listable.

(** *** Errors *)

Lemma for_each_first_failure {A B} (f : A -> result B)
    (pre post : list A) (x : A) (ys : list B) (e : exn) :
  for_each f pre = Ok ys -> f x = Raise e ->
  for_each f (pre ++ x :: post) = Raise e.
Proof.
  revert ys. induction pre as [|a pre IH]; simpl; intros ys Hpre Hx.
  - now rewrite Hx.
  - destruct (f a) as [b|e0]; [|discriminate].
    destruct (for_each f pre) as [bs|e0]; [|discriminate].
    now rewrite (IH bs eq_refl Hx).
Qed.


Lemma create_tournament_error (t : Tournament) (db db' : option Database)
    (e : exn) :
  create_tournament t db = (Raise e, db') ->
  exists detail, e = HTTPException 500 detail.
Proof.
  unfold create_tournament. run_handler. destruct db as [d|].
  - destruct (insert_one d "tournament" (model_dump t)) as [[oid d']|e'];
      [discriminate|]. intros [= <- _]. eauto.
  - intros [= <- _]. eauto.
Qed.

Section Errors.
Context {rt : PyRuntime}.

Lemma list_tournaments_error (status : option string)
    (db db' : option Database) (e : exn) :
  list_tournaments status db = (Raise e, db') ->
  exists detail, e = HTTPException 500 detail.
Proof.
  unfold list_tournaments. run_handler. destruct db as [d|].
  - destruct (find d _ _) as [docs|e']; [|intros [= <- _]; eauto].
    destruct (for_each tournament_out docs); [discriminate|].
    intros [= <- _]. eauto.
  - intros [= <- _]. eauto.
Qed.

Lemma list_predictions_error (tid : option string)
    (db db' : option Database) (e : exn) :
  list_predictions tid db = (Raise e, db') ->
  exists detail, e = HTTPException 500 detail.
Proof.
  unfold list_predictions. run_handler. destruct db as [d|].
  - destruct (find d _ _) as [docs|e']; [|intros [= <- _]; eauto].
    destruct (for_each prediction_out docs); [discriminate|].
    intros [= <- _]. eauto.
  - intros [= <- _]. eauto.
Qed.

(** X4: the listing stops at the first selected tournament that cannot be
    projected and answers 500 with the text of that document's error,
    whatever follows it in the store. *)
Theorem listing_reports_first_failure
    (status : option string) (d : Database) (pre post : list document)
    (doc : document) (outs : list TournamentOut.t) (e : exn) :
  db_fault d = None ->
  List.filter (matches (query_filter "status" status))
    (collection d "tournament") = pre ++ doc :: post ->
  for_each tournament_out pre = Ok outs ->
  tournament_out doc = Raise e ->
  list_tournaments status (Some d)
  = (Raise (HTTPException 500 (exn_str e)), Some d).
Proof.
  intros Hf Hsel Hpre Hdoc.
  rewrite list_tournaments_available by exact Hf. rewrite Hsel.
  now rewrite (for_each_first_failure _ _ _ _ _ _ Hpre Hdoc).
Qed.

(** X5: a listed prediction is a dictionary with exactly the six keys
    [id], [tournament_id], [user], [direction], [amount] and
    [created_at]; [tournament_id], [user] and [direction] are the stored
    values as they are, an explicit null when the document lacks them,
    and [id] is [str] of the stored [_id]. *)
Theorem listed_prediction_keys (d r : document) :
  prediction_out d = Ok r ->
  dom r = prediction_keys
  /\ r !! "id" = Some (VStr (py_str (get d "_id")))
  /\ r !! "tournament_id" = Some (get d "tournament_id")
  /\ r !! "user" = Some (get d "user")
  /\ r !! "direction" = Some (get d "direction").
Proof.
  unfold prediction_out, rbind.
  destruct (py_float (get_or d "amount" _)) as [amount|]; [|discriminate].
  destruct (if truthy (get d "created_at") then _ else _) as [c|];
    [|discriminate].
  intros [= Hr]; subst r. split; [|repeat split].
  rewrite !dom_insert_L, dom_empty_L. unfold prediction_keys. set_solver.
Qed.

(** X7: a GET request never changes the store, whether it succeeds or
    fails. *)
Theorem get_requests_read_only
    (env : gmap string string) (req : request) (db : option Database) :
  is_GET req = true -> (app env req db).2 = db.
Proof.
  destruct req as [| |t|status|p|tid]; try discriminate; intros _;
    unfold app, respond, bind, ret.
  - reflexivity.
  - now destruct (test_database env db).
  - pose proof (list_tournaments_reads status db) as H.
    now destruct (list_tournaments status db) as [[a|e] s].
  - pose proof (list_predictions_reads tid db) as H.
    now destruct (list_predictions tid db) as [[a|e] s].
Qed.

(** X8: whatever goes wrong in [create_tournament], [list_tournaments] or
    [list_predictions], the client sees an [HTTPException] with status
    500: no other exception and no other status leaves these handlers. *)
Theorem store_routes_fail_with_500
    (env : gmap string string) (req : request) (db db' : option Database)
    (e : exn) :
  is_store_route req = true ->
  app env req db = (Raise e, db') ->
  exists detail, e = HTTPException 500 detail.
Proof.
  destruct req as [| |t|status|p|tid]; try discriminate; intros _;
    unfold app, respond, bind, ret.
  - destruct (create_tournament t db) as [[a|e'] s] eqn:E; [discriminate|].
    intros [= <- _]. eapply create_tournament_error, E.
  - destruct (list_tournaments status db) as [[a|e'] s] eqn:E;
      [discriminate|].
    intros [= <- _]. eapply list_tournaments_error, E.
  - destruct (list_predictions tid db) as [[a|e'] s] eqn:E; [discriminate|].
    intros [= <- _]. eapply list_predictions_error, E.
Qed.

(** X11: when the store raises, [create_tournament], [list_tournaments],
    [list_predictions] and, for a well-formed id, [create_prediction]
    answer 500 with the text of the store's error as detail. *)
Theorem store_error_text_forwarded
    (d : Database) (cls : exc_class) (msg : string) (t : Tournament)
    (p : Prediction) (status tid : option string) :
  db_fault d = Some (PyExc cls msg) ->
  create_tournament t (Some d) = (Raise (HTTPException 500 msg), Some d)
  /\ list_tournaments status (Some d)
     = (Raise (HTTPException 500 msg), Some d)
  /\ list_predictions tid (Some d) = (Raise (HTTPException 500 msg), Some d)
  /\ (well_formed_id (p_tournament_id p) ->
      create_prediction p (Some d) = (Raise (HTTPException 500 msg), Some d)).
Proof.
  intros Hf. repeat split.
  - unfold create_tournament. run_handler.
    now rewrite (insert_one_unavailable _ _ _ _ Hf).
  - unfold list_tournaments. run_handler. unfold find. now rewrite Hf.
  - unfold list_predictions. run_handler. unfold find. now rewrite Hf.
  - intros Hw. apply ObjectId_well_formed in Hw as [oid Ho].
    unfold create_prediction. run_handler. rewrite Ho. unfold find.
    now rewrite Hf.
Qed.
End Errors.


(** X9: [create_prediction] fails in three ways only: 400 with detail
    [Invalid tournament id], 404 with detail [Tournament not found], or
    500 (the store's own exceptions are not HTTP exceptions). *)
Theorem create_prediction_error_codes
    (p : Prediction) (db db' : option Database) (e : exn) :
  create_prediction p db = (Raise e, db') ->
  (forall d c m, db = Some d -> db_fault d <> Some (HTTPException c m)) ->
  e = HTTPException 400 "Invalid tournament id"
  \/ e = HTTPException 404 "Tournament not found"
  \/ exists detail, e = HTTPException 500 detail.
Proof.
  intros Hrun Hstore.
  destruct (ObjectId (p_tournament_id p)) as [oid|e0] eqn:Ho.
  2:{ unfold create_prediction in Hrun. run_handler. rewrite Ho in Hrun.
      injection Hrun as <- _. now left. }
  destruct db as [d|].
  2:{ unfold create_prediction in Hrun. run_handler. rewrite Ho in Hrun.
      injection Hrun as <- _. right. right. eauto. }
  destruct (db_fault d) as [e0|] eqn:Hf.
  { unfold create_prediction in Hrun. run_handler. rewrite Ho in Hrun.
    unfold find in Hrun. rewrite Hf in Hrun. destruct e0 as [c m|cls msg].
    - now destruct (Hstore d c m eq_refl).
    - injection Hrun as <- _. right. right. eauto. }
  rewrite (create_prediction_available p d oid Hf Ho) in Hrun.
  destruct (head _).
  - destruct (insert_one_available d "prediction" (model_dump p) Hf)
      as (d' & Hins & _). rewrite Hins in Hrun. discriminate Hrun.
  - injection Hrun as <- _. right. now left.
Qed.

(** X10: with the store handle unset, a well-formed tournament id is
    answered 500, not 404: the lookup subscripts [None] and its
    [TypeError] reaches the catch-all branch. *)
Theorem unset_handle_prediction_500 (p : Prediction) :
  well_formed_id (p_tournament_id p) ->
  create_prediction p None
  = (Raise (HTTPException 500 "'NoneType' object is not subscriptable"),
     None).
Proof.
  intros Hw. apply ObjectId_well_formed in Hw as [oid Ho].
  unfold create_prediction. run_handler. now rewrite Ho.
Qed.

(** *** Filters *)

Lemma query_filter_text (key s : string) :
  s <> EmptyString -> query_filter key (Some s) = {[key := FStr s]}.
Proof.
  intros Hs. unfold query_filter.
  destruct (String.eqb_spec s EmptyString); [contradiction | reflexivity].
Qed.

Lemma matches_text (key s : string) (d : document) :
  matches {[key := FStr s]} d = has_text key s d.
Proof. rewrite matches_singleton. reflexivity. Qed.

Lemma has_text_spec (key s : string) (d : document) :
  has_text key s d = true <-> d !! key = Some (VStr s).
Proof.
  unfold has_text. destruct (d !! key) as [[]|]; split; try discriminate.
  - intros H. apply String.eqb_eq in H. now subst.
  - intros [= ->]. apply String.eqb_refl.
Qed.


Lemma forallb_filter {A} (p q : A -> bool) (l : list A) :
  forallb p l = true -> forallb p (List.filter q l) = true.
Proof.
  induction l as [|x l IH]; simpl; [reflexivity|].
  intros H. apply andb_prop in H as [Hx Hl].
  destruct (q x); simpl; [rewrite Hx|]; auto.
Qed.

Section Filters.
Context {rt : PyRuntime}.

(** X12: an empty query value filters nothing: [?status=] lists what no
    [status] lists, and [?tournament_id=] what no [tournament_id]
    lists. *)
Theorem empty_query_value_is_no_filter (db : option Database) :
  list_tournaments (Some EmptyString) db = list_tournaments None db
  /\ list_predictions (Some EmptyString) db = list_predictions None db.
Proof. split; reflexivity. Qed.


(** The projection of the document stored for a prediction payload. *)
Lemma prediction_out_dump (oid : objectid) (p : Prediction) :
  prediction_out (<["_id" := VObjectId oid]> (model_dump p))
  = Ok (prediction_projection_of oid p).
Proof. destruct p as [tid u dir a [c|]]; reflexivity. Qed.

End Filters.

(** X15: the prediction is stored with the [tournament_id] text as it was
    posted, so [?tournament_id=q] selects it exactly when [q] is that
    text, character for character, even where the lookup of the
    tournament accepted another spelling of the same identifier. *)
Theorem created_prediction_selected_by_posted_text
    (p : Prediction) (d d' : Database) (r : document) (q : string) :
  create_prediction p (Some d) = (Ok r, Some d') ->
  q <> EmptyString ->
  exists doc,
    collection d' "prediction" = collection d "prediction" ++ [doc]
    /\ (matches (query_filter "tournament_id" (Some q)) doc = true
        <-> q = p_tournament_id p).
Proof.
  intros Hrun Hq.
  destruct (create_prediction_outcome p (Some d))
    as [[e H]|(oid & d0 & d2 & t & doc & [= <-] & H & _ & _ & _ & Hc & Hd & _)];
    rewrite H in Hrun; [discriminate|]. injection Hrun as _ <-.
  exists doc. split; [exact Hc|].
  rewrite query_filter_text by exact Hq.
  rewrite matches_text, has_text_spec, Hd. split; congruence.
Qed.

(** *** More on stores built through the API *)

(** X16: since nothing deletes, a store built through the API keeps its
    references: every stored prediction carries the text of an identifier
    of a stored tournament, and the store answers. *)
Theorem api_built_keeps_references (d : Database) :
  api_built d -> db_fault d = None /\ references_hold d.
Proof.
  induction 1 as [name | d d' t r _ (Hf & Href) Hrun
                 | d d' p r _ (Hf & Href) Hrun].
  - split; [reflexivity|]. intros doc [].
  - destruct (create_tournament_available t d Hf)
      as (d2 & Hrun2 & Hf2 & Ht & Hp).
    rewrite Hrun2 in Hrun. injection Hrun as _ <-.
    split; [exact Hf2|].
    intros doc Hdoc. rewrite Hp in Hdoc.
    destruct (Href doc Hdoc) as (s & oid & t0 & H1 & H2 & H3 & H4).
    exists s, oid, t0. rewrite Ht. repeat split; auto.
    apply in_or_app. now left.
  - destruct (create_prediction_outcome p (Some d))
      as [[e H]|(oid & d0 & d2 & t & doc & [= <-] & H & Ho & Hin & Hid
                 & Hc & Hd & Ht & Hf2)];
      rewrite H in Hrun; [discriminate|]. injection Hrun as _ <-.
    split; [exact Hf2|].
    intros doc' Hdoc. rewrite Hc in Hdoc. rewrite Ht.
    apply in_app_or in Hdoc as [Hold|[<-|[]]].
    + exact (Href doc' Hold).
    + exists (p_tournament_id p), oid, t. auto.
Qed.

Section Built.
Context {rt : PyRuntime}.

Lemma api_built_predictions_listable (d : Database) :
  api_built d ->
  exists out, for_each prediction_out (collection d "prediction") = Ok out.
Proof.
  induction 1 as [name | d d' t r Hb [out Hout] Hrun
                 | d d' p r Hb [out Hout] Hrun].
  - exists []. reflexivity.
  - destruct (api_built_invariant d Hb) as (Hf & _).
    destruct (create_tournament_available t d Hf)
      as (d2 & Hrun2 & _ & _ & Hp).
    rewrite Hrun2 in Hrun. injection Hrun as _ <-. rewrite Hp. eauto.
  - destruct (api_built_invariant d Hb) as (Hf & _).
    destruct (ObjectId (p_tournament_id p)) as [oid|e] eqn:Ho.
    2:{ unfold create_prediction in Hrun. run_handler.
        rewrite Ho in Hrun. discriminate Hrun. }
    rewrite (create_prediction_available p d oid Hf Ho) in Hrun.
    destruct (head _); [|discriminate].
    destruct (insert_one_available d "prediction" (model_dump p) Hf)
      as (d2 & Hins & _ & _ & Hcoll & _).
    rewrite Hins in Hrun. injection Hrun as _ <-. rewrite Hcoll. eexists.
    apply (for_each_app _ _ _ _ _ Hout (prediction_out_dump _ p)).
Qed.

(** X17: on a store built through the API neither listing answers 500,
    with any filter: every document the two creation endpoints store can
    be projected. *)
Theorem api_built_listings_succeed
    (d : Database) (status tournament_id : option string) :
  api_built d ->
  is_ok (list_tournaments status (Some d)).1 = true
  /\ is_ok (list_predictions tournament_id (Some d)).1 = true.
Proof.
  intros Hb. destruct (api_built_invariant d Hb) as (Hf & [ts Hts] & _).
  destruct (api_built_predictions_listable d Hb) as [ps Hps].
  split.
  - rewrite list_tournaments_available by exact Hf. cbn [fst].
    rewrite is_ok_server_error, is_ok_for_each. apply forallb_filter.
    rewrite <- is_ok_for_each. now rewrite Hts.
  - rewrite list_predictions_available by exact Hf. cbn [fst].
    rewrite is_ok_server_error, is_ok_for_each. apply forallb_filter.
    rewrite <- is_ok_for_each. now rewrite Hps.
Qed.
End Built.

(** *** The further properties at sample inputs *)

Lemma mixed_store_not_listable :
  db_fault mixed_db = None
  /\ forall rt : PyRuntime,
       is_ok (list_tournaments None (Some mixed_db)).1
       = forallb listable_tournament
           (List.filter (matches (query_filter "status" None))
              (collection mixed_db "tournament")).
Proof.
  split; [reflexivity|]. intros rt.
  apply (list_tournaments_succeeds_iff_listable None mixed_db). reflexivity.
Defined.

Lemma bare_bet_listable :
  db_fault bare_bet_db = None
  /\ forall rt : PyRuntime,
       is_ok (list_predictions None (Some bare_bet_db)).1
       = forallb listable_prediction
           (List.filter (matches (query_filter "tournament_id" None))
              (collection bare_bet_db "prediction")).
Proof.
  split; [reflexivity|]. intros rt.
  apply (list_predictions_succeeds_iff_listable None bare_bet_db).
  reflexivity.
Defined.

Lemma falsy_times_listed_empty :
  exists r,
    forall rt : PyRuntime,
      tournament_out falsy_times_doc = Ok r
      /\ (truthy (get falsy_times_doc "start_time") = false ->
          TournamentOut.start_time r = EmptyString)
      /\ (truthy (get falsy_times_doc "end_time") = false ->
          TournamentOut.end_time r = EmptyString).
Proof.
  exists {| TournamentOut.id := oid_of_N 0;
            TournamentOut.title := "BTC Weekly";
            TournamentOut.asset := "BTC";
            TournamentOut.start_time := EmptyString;
            TournamentOut.end_time := EmptyString;
            TournamentOut.entry_fee := 10;
            TournamentOut.prize_pool := 1000;
            TournamentOut.status := "upcoming" |}.
  intros rt.
  assert (H : tournament_out falsy_times_doc
              = Ok {| TournamentOut.id := oid_of_N 0;
                      TournamentOut.title := "BTC Weekly";
                      TournamentOut.asset := "BTC";
                      TournamentOut.start_time := EmptyString;
                      TournamentOut.end_time := EmptyString;
                      TournamentOut.entry_fee := 10;
                      TournamentOut.prize_pool := 1000;
                      TournamentOut.status := "upcoming" |}) by reflexivity.
  split; [exact H|].
  apply (falsy_timestamp_listed_empty falsy_times_doc _ H).
Defined.

Lemma mixed_store_reports_null_fee :
  db_fault mixed_db = None
  /\ forall rt : PyRuntime,
       tournament_out null_fee_doc
       = Raise (PyExc TypeError
           "float() argument must be a string or a real number, not 'NoneType'")
       /\ list_tournaments None (Some mixed_db)
          = (Raise (HTTPException 500
               (exn_str (PyExc TypeError
                  "float() argument must be a string or a real number, not 'NoneType'"))),
             Some mixed_db).
Proof.
  split; [reflexivity|]. intros rt. split; [reflexivity|].
  apply (listing_reports_first_failure None mixed_db [btc_doc] [untitled_doc]
           null_fee_doc [projection_of (oid_of_N 0) btc_weekly]);
    reflexivity.
Defined.

Lemma bare_bet_keys :
  exists r,
    forall rt : PyRuntime,
      prediction_out bare_bet_doc = Ok r
      /\ dom r = prediction_keys
      /\ r !! "id" = Some (VStr (py_str (get bare_bet_doc "_id")))
      /\ r !! "tournament_id" = Some (get bare_bet_doc "tournament_id")
      /\ r !! "user" = Some (get bare_bet_doc "user")
      /\ r !! "direction" = Some (get bare_bet_doc "direction").
Proof.
  exists (<["id" := VStr (oid_of_N 1)]>
         (<["tournament_id" := VStr (oid_of_N 0)]>
         (<["user" := VNone]>
         (<["direction" := VNone]>
         (<["amount" := VFloat 0]>
         (<["created_at" := VNone]> ∅)))))).
  intros rt.
  assert (H : prediction_out bare_bet_doc
              = Ok (<["id" := VStr (oid_of_N 1)]>
                   (<["tournament_id" := VStr (oid_of_N 0)]>
                   (<["user" := VNone]>
                   (<["direction" := VNone]>
                   (<["amount" := VFloat 0]>
                   (<["created_at" := VNone]> ∅))))))) by reflexivity.
  split; [exact H|].
  apply (listed_prediction_keys bare_bet_doc _ H).
Defined.

Lemma failed_listing_reads_only :
  is_GET (GET_api_tournaments None) = true
  /\ forall rt : PyRuntime,
       (app ∅ (GET_api_tournaments None) (Some mixed_db)).2 = Some mixed_db.
Proof.
  split; [reflexivity|]. intros rt.
  apply (get_requests_read_only ∅ (GET_api_tournaments None) (Some mixed_db)).
  reflexivity.
Defined.

Lemma failed_listing_is_500 :
  exists e,
    forall rt : PyRuntime,
      app ∅ (GET_api_tournaments None) (Some mixed_db)
      = (Raise e, Some mixed_db)
      /\ exists detail, e = HTTPException 500 detail.
Proof.
  exists (HTTPException 500
    "float() argument must be a string or a real number, not 'NoneType'").
  intros rt.
  assert (H : app ∅ (GET_api_tournaments None) (Some mixed_db)
              = (Raise (HTTPException 500
                   "float() argument must be a string or a real number, not 'NoneType'"),
                 Some mixed_db)) by reflexivity.
  split; [exact H|].
  apply (store_routes_fail_with_500 ∅ (GET_api_tournaments None) _ _ _
           eq_refl H).
Defined.

Lemma unknown_id_is_one_of_three :
  create_prediction (bet_on (oid_of_N 7)) (Some (one_tournament_db btc_doc))
  = (Raise (HTTPException 404 "Tournament not found"),
     Some (one_tournament_db btc_doc))
  /\ (HTTPException 404 "Tournament not found"
      = HTTPException 400 "Invalid tournament id"
      \/ HTTPException 404 "Tournament not found"
         = HTTPException 404 "Tournament not found"
      \/ exists detail,
           HTTPException 404 "Tournament not found"
           = HTTPException 500 detail).
Proof.
  assert (H : create_prediction (bet_on (oid_of_N 7))
                (Some (one_tournament_db btc_doc))
              = (Raise (HTTPException 404 "Tournament not found"),
                 Some (one_tournament_db btc_doc))) by reflexivity.
  split; [exact H|].
  apply (create_prediction_error_codes _ _ _ _ H).
  intros d c m [= <-]. discriminate.
Defined.

Lemma unset_handle_first_id_500 :
  well_formed_id (p_tournament_id (bet_on (oid_of_N 0)))
  /\ create_prediction (bet_on (oid_of_N 0)) None
     = (Raise (HTTPException 500 "'NoneType' object is not subscriptable"),
        None).
Proof.
  assert (H : well_formed_id (p_tournament_id (bet_on (oid_of_N 0))))
    by (split; reflexivity).
  split; [exact H|].
  apply (unset_handle_prediction_500 (bet_on (oid_of_N 0)) H).
Defined.

Lemma unreachable_store_text_forwarded :
  db_fault unreachable_db = Some (PyExc StoreError "connection refused")
  /\ forall rt : PyRuntime,
       create_tournament btc_weekly (Some unreachable_db)
       = (Raise (HTTPException 500 "connection refused"), Some unreachable_db)
       /\ list_tournaments None (Some unreachable_db)
          = (Raise (HTTPException 500 "connection refused"),
             Some unreachable_db)
       /\ list_predictions None (Some unreachable_db)
          = (Raise (HTTPException 500 "connection refused"),
             Some unreachable_db)
       /\ (well_formed_id (p_tournament_id (bet_on (oid_of_N 0))) ->
           create_prediction (bet_on (oid_of_N 0)) (Some unreachable_db)
           = (Raise (HTTPException 500 "connection refused"),
              Some unreachable_db)).
Proof.
  split; [reflexivity|]. intros rt.
  apply (store_error_text_forwarded unreachable_db StoreError
           "connection refused" btc_weekly (bet_on (oid_of_N 0)) None None).
  reflexivity.
Defined.



Lemma upper_bet_not_selected_by_lower_case :
  create_prediction upper_bet (Some lettered_db)
  = (Ok {["id" := VStr (oid_of_N 11)]}, Some lettered_bet_db)
  /\ oid_of_N 10 <> EmptyString
  /\ exists doc,
       collection lettered_bet_db "prediction"
       = collection lettered_db "prediction" ++ [doc]
       /\ (matches (query_filter "tournament_id" (Some (oid_of_N 10))) doc
           = true
           <-> oid_of_N 10 = p_tournament_id upper_bet).
Proof.
  assert (H : create_prediction upper_bet (Some lettered_db)
              = (Ok {["id" := VStr (oid_of_N 11)]}, Some lettered_bet_db))
    by (vm_compute; reflexivity).
  assert (Hq : oid_of_N 10 <> EmptyString) by discriminate.
  split; [exact H|]. split; [exact Hq|].
  apply (created_prediction_selected_by_posted_text _ _ _ _ _ H Hq).
Defined.

Lemma first_bet_db_keeps_references :
  api_built first_bet_db
  /\ db_fault first_bet_db = None /\ references_hold first_bet_db.
Proof.
  split; [exact api_built_first_bet|].
  apply (api_built_keeps_references first_bet_db api_built_first_bet).
Defined.

Lemma first_bet_db_listings_succeed :
  api_built first_bet_db
  /\ forall rt : PyRuntime,
       is_ok (list_tournaments (Some "active") (Some first_bet_db)).1 = true
       /\ is_ok (list_predictions None (Some first_bet_db)).1 = true.
Proof.
  split; [exact api_built_first_bet|]. intros rt.
  apply (api_built_listings_succeed first_bet_db (Some "active") None
           api_built_first_bet).
Defined.

(** *** Further worked examples *)

(** The canonical spelling of the identifier does not find the prediction
    that was posted in upper case; the posted spelling does. *)
Example lower_case_query_misses_upper_bet (rt : PyRuntime) :
  (list_predictions (Some "00000000000000000000000a") (Some lettered_bet_db)).1
  = Ok []
  /\ (list_predictions (Some "00000000000000000000000A")
        (Some lettered_bet_db)).1
     = Ok [prediction_projection_of (oid_of_N 11) upper_bet].
Proof. split; reflexivity. Qed.

Example text_start_breaks_listing (rt : PyRuntime) :
  (list_tournaments None (Some (one_tournament_db text_start_doc))).1
  = Raise (HTTPException 500 "'str' object has no attribute 'isoformat'").
Proof. reflexivity. Qed.

Example null_amount_breaks_listing (rt : PyRuntime) :
  listable_prediction null_amount_doc = false.
Proof. reflexivity. Qed.
